(** * Article generator: endpoint [route.ts] and form controller [page.tsx]

    A shallow embedding of the two TypeScript sources of the repository:

    - [src/app/api/generate/route.ts]: the [POST] handler (input checks,
      credential check, prompt, provider call, failure mapping);
    - [src/app/page.tsx]: [validateForm], [handleSubmit] and the file name
      computed by [downloadMarkdown].

    JavaScript strings are sequences of UTF-16 code units, so [length],
    [slice], [trim] and the regular expression of [downloadMarkdown] all count
    code units; they are modelled as lists of code units. *)

From Stdlib Require Import List NArith ZArith Bool Lia String Ascii.
Import ListNotations.

Set Implicit Arguments.
Set Warnings "-register-all".

(* ================================================================= *)
(** ** JavaScript values and the string primitives the sources use    *)
(* ================================================================= *)

Module JS.

(** A string value: its UTF-16 code units. *)
Definition jsstring : Type := list N.

(** An ASCII literal of the source, as a string value. *)
Definition js (s : string) : jsstring :=
  List.map N_of_ascii (list_ascii_of_string s).

Fixpoint str_eqb (a b : jsstring) : bool :=
  match a, b with
  | [], [] => true
  | x :: a', y :: b' => N.eqb x y && str_eqb a' b'
  | _, _ => false
  end.

(** [WhiteSpace] and [LineTerminator] code points of ECMAScript, the ones
    [String.prototype.trim] strips. *)
Definition isWhiteSpace (c : N) : bool :=
  ((9 <=? c) && (c <=? 13)          (* TAB LF VT FF CR *)
   || (c =? 32)                     (* SPACE *)
   || (c =? 160)                    (* NO-BREAK SPACE *)
   || (c =? 5760)                   (* U+1680 *)
   || ((8192 <=? c) && (c <=? 8202)) (* U+2000 .. U+200A *)
   || (c =? 8232) || (c =? 8233)    (* U+2028, U+2029 *)
   || (c =? 8239)                   (* U+202F *)
   || (c =? 8287)                   (* U+205F *)
   || (c =? 12288)                  (* U+3000 *)
   || (c =? 65279))%N.              (* U+FEFF *)

Fixpoint trimStart (s : jsstring) : jsstring :=
  match s with
  | [] => []
  | c :: s' => if isWhiteSpace c then trimStart s' else s
  end.

Definition trimEnd (s : jsstring) : jsstring :=
  rev (trimStart (rev s)).

(** [String.prototype.trim]. *)
Definition trim (s : jsstring) : jsstring := trimEnd (trimStart s).

Fixpoint startsWith (s pat : jsstring) {struct pat} : bool :=
  match pat, s with
  | [], _ => true
  | _ :: _, [] => false
  | p :: pat', c :: s' => N.eqb c p && startsWith s' pat'
  end.

(** [String.prototype.includes(pat)]: [pat] occurs at some position. *)
Fixpoint includes (s pat : jsstring) : bool :=
  startsWith s pat
  || match s with
     | [] => false
     | _ :: s' => includes s' pat
     end.

(** [String.prototype.slice(start, end)], with the clamping of negative
    and oversized indices ECMAScript prescribes. *)
Definition slice (s : jsstring) (start stop : Z) : jsstring :=
  let len := Z.of_nat (List.length s) in
  let from := if (start <? 0)%Z then Z.max (len + start) 0 else Z.min start len in
  let to := if (stop <? 0)%Z then Z.max (len + stop) 0 else Z.min stop len in
  firstn (Z.to_nat (to - from)) (skipn (Z.to_nat from) s).

(** [Canonicalize] of a regular expression with the [i] flag and without
    the [u] flag: the code unit is upper-cased, except that a code unit of
    128 or more is never mapped below 128. Only [a]..[z] change inside
    ASCII. The upper-casing of the other code units stays at 128 or more,
    and is left out: the only class it is compared with here is ASCII. *)
Definition Canonicalize (ch : N) : N :=
  if ((97 <=? ch) && (ch <=? 122))%N then (ch - 32)%N else ch.

(** A character class [[...]] or [[^...]] given by its ranges. *)
Record CharClass : Type := mkClass {
  invert : bool;
  ranges : list (N * N);
  ignoreCase : bool
}.

Fixpoint range_members (lo : N) (n : nat) : list N :=
  match n with
  | O => []
  | S n' => lo :: range_members (N.succ lo) n'
  end.

Definition class_members (cc : CharClass) : list N :=
  flat_map (fun r => range_members (fst r) (N.to_nat (N.succ (snd r) - fst r)))
           (ranges cc).

(** [CharacterSetMatcher]: some member of the class has the canonical form
    of the input code unit; the answer is negated for [[^...]]. *)
Definition class_matches (cc : CharClass) (ch : N) : bool :=
  let canon := if ignoreCase cc then Canonicalize else (fun c => c) in
  let found := existsb (fun a => N.eqb (canon a) (canon ch)) (class_members cc) in
  if invert cc then negb found else found.

(** [s.replace(/[class]/g, by)]: every code unit the class matches is
    replaced, the others are kept. *)
Definition replace_class (cc : CharClass) (by_ : jsstring) (s : jsstring) : jsstring :=
  flat_map (fun c => if class_matches cc c then by_ else [c]) s.

(** [String.prototype.toLowerCase] on ASCII code units ([A]..[Z] to
    [a]..[z]). The source applies it to the output of the replacement
    above only, which is ASCII (lemma [slug_source_ascii] below); the
    Unicode case mapping of the other code units is not modelled. *)
Definition toLowerCase (s : jsstring) : jsstring :=
  List.map (fun c => if ((65 <=? c) && (c <=? 90))%N then (c + 32)%N else c) s.

(** Values a parsed JSON body or a destructured field can hold. Numbers
    are only tested for truthiness by the sources, and are kept as
    integers (falsy exactly at zero). *)
Inductive value : Type :=
| VUndefined
| VNull
| VBool (b : bool)
| VNumber (n : Z)
| VString (s : jsstring)
| VArray (items : list value)
| VObject (fields : list (jsstring * value)).

(** [ToBoolean]. *)
Definition truthy (v : value) : bool :=
  match v with
  | VUndefined | VNull => false
  | VBool b => b
  | VNumber n => negb (n =? 0)%Z
  | VString s => match s with [] => false | _ => true end
  | VArray _ | VObject _ => true
  end.

Inductive type_tag : Type :=
| TUndefined | TObject | TBoolean | TNumber | TString.

(** [typeof v] ([typeof null] is ["object"]). *)
Definition typeof (v : value) : type_tag :=
  match v with
  | VUndefined => TUndefined
  | VNull | VArray _ | VObject _ => TObject
  | VBool _ => TBoolean
  | VNumber _ => TNumber
  | VString _ => TString
  end.

Definition is_string_tag (t : type_tag) : bool :=
  match t with TString => true | _ => false end.

(** [SameValueZero] of a string literal and a value (the comparison of
    [Array.prototype.includes] on an array of string literals). *)
Definition sameValueZero_str (lit : jsstring) (v : value) : bool :=
  match v with
  | VString s => str_eqb lit s
  | _ => false
  end.

Definition array_includes (lits : list jsstring) (v : value) : bool :=
  existsb (fun lit => sameValueZero_str lit v) lits.

(** Own property of an object built by [JSON.parse]: a later duplicate
    key overwrites an earlier one. *)
Definition own_property (fields : list (jsstring * value)) (key : jsstring) : value :=
  fold_left (fun found kv => if str_eqb (fst kv) key then snd kv else found)
            fields VUndefined.

(** What a [throw] or a rejected promise carries: an [Error] instance
    with its [message], or some other value. *)
Inductive Thrown : Type :=
| ErrorInstance (message : jsstring)
| NotAnError (v : value).

End JS.

(* ================================================================= *)
(** ** The generation endpoint: [src/app/api/generate/route.ts]       *)
(* ================================================================= *)

Module Route.
Import JS.

(** The body of [NextResponse.json(body, { status })]. *)
Inductive ResponseBody : Type :=
| ErrorBody (error : jsstring)
| ArticleBody (article : jsstring).

Record Response : Type := mkResponse {
  body : ResponseBody;
  status : Z
}.

(** The argument of [anthropic.messages.create]. *)
Record MessageParam : Type := mkMessage {
  role : jsstring;
  content : jsstring
}.

Record MessageCreateParams : Type := mkParams {
  model : jsstring;
  max_tokens : Z;
  messages : list MessageParam
}.

(** A content block of the provider's answer, a union tagged by [type];
    only the [text] variant carries a [text] field. *)
Inductive ContentBlock : Type :=
| TextBlock (text : jsstring)
| ThinkingBlock (thinking : jsstring)
| RedactedThinkingBlock (data : jsstring)
| ToolUseBlock (name : jsstring).

Definition block_type (b : ContentBlock) : jsstring :=
  match b with
  | TextBlock _ => js "text"
  | ThinkingBlock _ => js "thinking"
  | RedactedThinkingBlock _ => js "redacted_thinking"
  | ToolUseBlock _ => js "tool_use"
  end.

(** The provider call resolves to a message (its [content]) or rejects. *)
Inductive CreateOutcome : Type :=
| CreateResolves (content : list ContentBlock)
| CreateRejects (e : Thrown).

(** [process.env]: a variable is unset or holds a string. *)
Record Env : Type := mkEnv {
  ANTHROPIC_API_KEY : option jsstring
}.

(** [!process.env.ANTHROPIC_API_KEY]: unset and the empty string are falsy. *)
Definition env_truthy (v : option jsstring) : bool :=
  match v with
  | Some (_ :: _) => true
  | _ => false
  end.

(** [await request.json()] resolves to the parsed body or rejects. *)
Record NextRequest : Type := mkRequest {
  json : Thrown + value
}.

(** What the handler does besides answering. *)
Inductive Event : Type :=
| ProviderCall (params : MessageCreateParams)
| ConsoleError (label : jsstring) (e : Thrown).

(** *** The [try] block: events so far, then a value or a thrown one *)

Definition M (A : Type) : Type := (list Event * (Thrown + A))%type.

Definition ret {A} (a : A) : M A := ([], inr a).

Definition throw {A} (e : Thrown) : M A := ([], inl e).

Definition bind {A B} (m : M A) (f : A -> M B) : M B :=
  match m with
  | (t, inl e) => (t, inl e)
  | (t, inr a) => let (t', r) := f a in (t ++ t', r)
  end.

Notation "x <- m ;; k" := (bind m (fun x => k))
  (at level 61, m at next level, right associativity).
Notation "' pat <- m ;; k" := (bind m (fun x => match x with pat => k end))
  (at level 61, pat pattern, m at next level, right associativity).

(** The [TypeError] messages of V8 for the three accesses that can fail. *)
Definition destructure_null_message : jsstring :=
  js "Cannot destructure property 'topic' of 'body' as it is null.".
Definition destructure_undefined_message : jsstring :=
  js "Cannot destructure property 'topic' of 'body' as it is undefined.".
Definition not_a_function_message : jsstring :=
  js "trim is not a function".
Definition read_undefined_message : jsstring :=
  js "Cannot read properties of undefined (reading 'type')".

(** [body.name] of the destructuring: [null] and [undefined] have no
    properties; none of the three names is defined on a prototype, so a
    primitive or an array yields [undefined]. *)
Definition field (body : value) (name : jsstring) : value :=
  match body with
  | VObject fields => own_property fields name
  | _ => VUndefined
  end.

(** [const { topic, keyPoints, tone } = body]. *)
Definition destructure (body : value) : M (value * value * value) :=
  match body with
  | VNull => throw (ErrorInstance destructure_null_message)
  | VUndefined => throw (ErrorInstance destructure_undefined_message)
  | _ => ret (field body (js "topic"), field body (js "keyPoints"), field body (js "tone"))
  end.

(** [v.trim()]: a method call, a [TypeError] when [v] is not a string
    (no run reaches that case: every call follows a [typeof] guard). *)
Definition call_trim (v : value) : M jsstring :=
  match v with
  | VString s => ret (trim s)
  | _ => throw (ErrorInstance not_a_function_message)
  end.

(** The template literal's [${tone}]. The tone check leaves only a string
    here; [ToString] of the other values is not modelled, and its place is
    taken by a throw that no run reaches (lemma [try_block_valid]). *)
Definition template_string (v : value) : M jsstring :=
  match v with
  | VString s => ret s
  | _ => throw (ErrorInstance not_a_function_message)
  end.

Definition json_response (b : ResponseBody) (code : Z) : Response :=
  mkResponse b code.

Definition TONES : list jsstring :=
  [js "professional"; js "casual"; js "academic"; js "creative"; js "conversational"].

Definition nl : jsstring := [10%N].

(** The prompt of lines 75-93. *)
Definition build_prompt (topic keyPoints tone : jsstring) : jsstring :=
  js "You are an expert content writer. Create a well-structured article draft based on the following information:" ++ nl
  ++ nl
  ++ js "Topic: " ++ topic ++ nl
  ++ nl
  ++ js "Key Points to Cover:" ++ nl
  ++ keyPoints ++ nl
  ++ nl
  ++ js "Tone/Style: " ++ tone ++ nl
  ++ nl
  ++ js "Requirements:" ++ nl
  ++ js "- Write in " ++ tone ++ js " tone" ++ nl
  ++ js "- Include an engaging introduction" ++ nl
  ++ js "- Expand on each key point in separate sections" ++ nl
  ++ js "- Add a conclusion that summarizes key takeaways" ++ nl
  ++ js "- Use markdown formatting (headers, bullet points, bold text)" ++ nl
  ++ js "- Aim for 800-1200 words" ++ nl
  ++ js "- Make it ready to publish with minimal editing" ++ nl
  ++ nl
  ++ js "Generate the article now:".

Definition create_params (prompt : jsstring) : MessageCreateParams :=
  mkParams (js "claude-sonnet-4-5-20250929") 4096
           [mkMessage (js "user") prompt].

(** [await anthropic.messages.create(params)]. *)
Definition call_provider (create : MessageCreateParams -> CreateOutcome)
           (params : MessageCreateParams) : M (list ContentBlock) :=
  ([ProviderCall params],
   match create params with
   | CreateResolves content => inr content
   | CreateRejects e => inl e
   end).

(** [message.content[0]] followed by a property read. *)
Definition first_block (content : list ContentBlock) : M ContentBlock :=
  match content with
  | b :: _ => ret b
  | [] => throw (ErrorInstance read_undefined_message)
  end.

Definition MSG_TOPIC_REQUIRED : jsstring :=
  js "Topic is required and must be a non-empty string".
Definition MSG_TOPIC_LENGTH : jsstring :=
  js "Topic must be 200 characters or less".
Definition MSG_KEYPOINTS_REQUIRED : jsstring :=
  js "Key points are required and must be a non-empty string".
Definition MSG_KEYPOINTS_LENGTH : jsstring :=
  js "Key points must be 2000 characters or less".
Definition MSG_TONE : jsstring :=
  js "Tone must be one of: professional, casual, academic, creative, conversational".
Definition MSG_NOT_CONFIGURED : jsstring :=
  js "ANTHROPIC_API_KEY is not configured. Please add it to your environment variables.".
Definition MSG_FALLBACK_ARTICLE : jsstring :=
  js "Failed to generate article content".
Definition MSG_INVALID_KEY : jsstring :=
  js "Invalid Anthropic API key. Please check your ANTHROPIC_API_KEY environment variable.".
Definition MSG_RATE_LIMIT : jsstring :=
  js "Rate limit exceeded. Please wait a moment and try again.".
Definition MSG_TIMEOUT : jsstring :=
  js "Request timeout. The AI took too long to respond. Please try again.".
Definition MSG_GENERIC : jsstring :=
  js "Failed to generate article. Please try again later.".

(** [!v || typeof v !== 'string' || v.trim().length === 0], with the
    short-circuit evaluation of [||]. *)
Definition missing_or_blank (v : value) : M bool :=
  if negb (truthy v) then ret true
  else if negb (is_string_tag (typeof v)) then ret true
  else t <- call_trim v ;; ret (Nat.eqb (List.length t) 0).

(** Lines 26-116: the body of the [try]. *)
Definition try_block (env : Env) (create : MessageCreateParams -> CreateOutcome)
           (request : NextRequest) : M Response :=
  body <- ([], json request) ;;
  '(topic, keyPoints, tone) <- destructure body ;;
  bad_topic <- missing_or_blank topic ;;
  if bad_topic then
    ret (json_response (ErrorBody MSG_TOPIC_REQUIRED) 400)
  else
  topic_trimmed <- call_trim topic ;;
  if Nat.ltb 200 (List.length topic_trimmed) then
    ret (json_response (ErrorBody MSG_TOPIC_LENGTH) 400)
  else
  bad_keyPoints <- missing_or_blank keyPoints ;;
  if bad_keyPoints then
    ret (json_response (ErrorBody MSG_KEYPOINTS_REQUIRED) 400)
  else
  keyPoints_trimmed <- call_trim keyPoints ;;
  if Nat.ltb 2000 (List.length keyPoints_trimmed) then
    ret (json_response (ErrorBody MSG_KEYPOINTS_LENGTH) 400)
  else
  if negb (truthy tone) || negb (array_includes TONES tone) then
    ret (json_response (ErrorBody MSG_TONE) 400)
  else
  if negb (env_truthy (ANTHROPIC_API_KEY env)) then
    ret (json_response (ErrorBody MSG_NOT_CONFIGURED) 500)
  else
  tone_text <- template_string tone ;;
  let prompt := build_prompt topic_trimmed keyPoints_trimmed tone_text in
  content <- call_provider create (create_params prompt) ;;
  first <- first_block content ;;
  let articleText :=
    if str_eqb (block_type first) (js "text")
    then match first with TextBlock text => text | _ => MSG_FALLBACK_ARTICLE end
    else MSG_FALLBACK_ARTICLE in
  ret (json_response (ArticleBody articleText) 200).

(** Lines 118-150: the [catch] block, after its [console.error]. *)
Definition catch_block (error : Thrown) : Response :=
  match error with
  | ErrorInstance message =>
      if includes message (js "401") || includes message (js "authentication") then
        json_response (ErrorBody MSG_INVALID_KEY) 500
      else if includes message (js "429") || includes message (js "rate limit") then
        json_response (ErrorBody MSG_RATE_LIMIT) 429
      else if includes message (js "timeout") then
        json_response (ErrorBody MSG_TIMEOUT) 504
      else
        json_response (ErrorBody MSG_GENERIC) 500
  | NotAnError _ =>
      json_response (ErrorBody MSG_GENERIC) 500
  end.

Definition console_label : jsstring := js "Error generating article:".

(** [export async function POST(request)]: the events, in order, and the
    response. *)
Definition POST (env : Env) (create : MessageCreateParams -> CreateOutcome)
           (request : NextRequest) : list Event * Response :=
  match try_block env create request with
  | (events, inr response) => (events, response)
  | (events, inl error) =>
      (events ++ [ConsoleError console_label error],
       catch_block error)
  end.

End Route.

(* ================================================================= *)
(** ** The form controller: [src/app/page.tsx]                        *)
(* ================================================================= *)

Module Page.
Import JS.

(** [interface GenerateRequest]; [tone] holds the value of the select. *)
Record GenerateRequest : Type := mkFormData {
  topic : jsstring;
  keyPoints : jsstring;
  tone : jsstring
}.

(** [interface GenerateResponse], as declared: [article: string] and
    [error?: string]. The handler reads [article] on the success path only
    and [error] on the failure path only. *)
Record GenerateResponse : Type := mkData {
  article : jsstring;
  error_field : option jsstring
}.

(** The [useState] cells of [Home]. *)
Record State : Type := mkState {
  formData : GenerateRequest;
  generatedArticle : jsstring;
  isLoading : bool;
  error : jsstring;
  lastGenerated : Z;
  copySuccess : bool;
  downloadSuccess : bool
}.

Definition initial_state : State :=
  mkState (mkFormData [] [] (js "professional")) [] false [] 0 false false.

Definition setGeneratedArticle (v : jsstring) (s : State) : State :=
  mkState (formData s) v (isLoading s) (error s) (lastGenerated s)
          (copySuccess s) (downloadSuccess s).
Definition setIsLoading (v : bool) (s : State) : State :=
  mkState (formData s) (generatedArticle s) v (error s) (lastGenerated s)
          (copySuccess s) (downloadSuccess s).
Definition setError (v : jsstring) (s : State) : State :=
  mkState (formData s) (generatedArticle s) (isLoading s) v (lastGenerated s)
          (copySuccess s) (downloadSuccess s).
Definition setLastGenerated (v : Z) (s : State) : State :=
  mkState (formData s) (generatedArticle s) (isLoading s) (error s) v
          (copySuccess s) (downloadSuccess s).

Definition ERR_TOPIC_EMPTY : jsstring := js "Please enter a topic".
Definition ERR_TOPIC_LENGTH : jsstring := js "Topic must be 200 characters or less".
Definition ERR_KEYPOINTS_EMPTY : jsstring := js "Please enter at least one key point".
Definition ERR_KEYPOINTS_LENGTH : jsstring := js "Key points must be 2000 characters or less".
Definition ERR_WAIT : jsstring := js "Please wait a few seconds before generating again".
Definition ERR_FAILED : jsstring := js "Failed to generate article".
Definition ERR_UNEXPECTED : jsstring := js "An unexpected error occurred".

(** [!s]: a string is falsy when empty. *)
Definition str_falsy (s : jsstring) : bool :=
  match s with [] => true | _ => false end.

(** [validateForm] (lines 44-62): the answer and the state it leaves. *)
Definition validateForm (s : State) : bool * State :=
  if str_falsy (trim (topic (formData s))) then
    (false, setError ERR_TOPIC_EMPTY s)
  else if Nat.ltb 200 (List.length (topic (formData s))) then
    (false, setError ERR_TOPIC_LENGTH s)
  else if str_falsy (trim (keyPoints (formData s))) then
    (false, setError ERR_KEYPOINTS_EMPTY s)
  else if Nat.ltb 2000 (List.length (keyPoints (formData s))) then
    (false, setError ERR_KEYPOINTS_LENGTH s)
  else
    (true, s).

(** The argument of [fetch]; [payload] is the record that
    [JSON.stringify(formData)] serialises. *)
Record FetchRequest : Type := mkFetch {
  url : jsstring;
  method : jsstring;
  content_type : jsstring;
  payload : GenerateRequest
}.

(** [await fetch(...)] rejects, or resolves to a response with its [ok]
    flag, whose [json()] in turn rejects or resolves. *)
Inductive FetchOutcome : Type :=
| FetchRejects (e : Thrown)
| FetchResolves (ok : bool) (json : Thrown + GenerateResponse).

(** [data.error || 'Failed to generate article']. *)
Definition error_or_default (data : GenerateResponse) : jsstring :=
  match error_field data with
  | Some (c :: m) => c :: m
  | _ => ERR_FAILED
  end.

(** The [catch] of [handleSubmit] (line 100). *)
Definition submit_catch (err : Thrown) (s : State) : State :=
  setError (match err with
            | ErrorInstance message => message
            | NotAnError _ => ERR_UNEXPECTED
            end) s.

(** The [try] of [handleSubmit] (lines 83-98): the state it reaches, or
    the value thrown. [now'] is the [Date.now()] of line 98. *)
Definition submit_try (outcome : FetchOutcome) (now' : Z) (s : State) : Thrown + State :=
  match outcome with
  | FetchRejects e => inl e
  | FetchResolves ok (inl e) => inl e
  | FetchResolves ok (inr data) =>
      if negb ok then inl (ErrorInstance (error_or_default data))
      else inr (setLastGenerated now' (setGeneratedArticle (article data) s))
  end.

(** The request of lines 83-89. *)
Definition generate_request (s : State) : FetchRequest :=
  mkFetch (js "/api/generate") (js "POST") (js "application/json") (formData s).

(** [handleSubmit] (lines 64-104). [now] is the [Date.now()] of line 72.
    The result is the state once the handler has finished and the
    requests it has issued. *)
Definition handleSubmit (fetch : FetchRequest -> FetchOutcome)
           (now now' : Z) (s : State) : State * list FetchRequest :=
  let (valid, s1) := validateForm s in
  if negb valid then (s1, [])
  else if (now - lastGenerated s1 <? 3000)%Z then
    (setError ERR_WAIT s1, [])
  else
    let s2 := setGeneratedArticle [] (setError [] (setIsLoading true s1)) in
    let request := generate_request s in
    let s3 :=
      match submit_try (fetch request) now' s2 with
      | inr s' => s'
      | inl err => submit_catch err s2
      end in
    (setIsLoading false s3, [request]).

(** The class of [/[^a-z0-9]/gi]. *)
Definition NOT_ALNUM : CharClass :=
  mkClass true [(97%N, 122%N); (48%N, 57%N)] true.

(** The [download] attribute of [downloadMarkdown] (line 127). *)
Definition downloadMarkdown_name (s : State) : jsstring :=
  let slug :=
    toLowerCase (replace_class NOT_ALNUM (js "-") (slice (topic (formData s)) 0 50)) in
  (if str_falsy slug then js "article" else slug) ++ js ".md".

End Page.

(* ================================================================= *)
(** ** What the specification says, as propositions                   *)
(* ================================================================= *)

Module Spec.
Import JS Route.

(** [pat] is a substring of [s]. *)
Definition contains (s pat : jsstring) : Prop :=
  exists pre post, s = pre ++ pat ++ post.

(** Check 1 and check 3: the field is present, a string, and non-empty
    after trimming. *)
Definition present (body : value) (name : jsstring) : Prop :=
  exists s, field body name = VString s /\ trim s <> [].

(** Check 2 and check 4: the trimmed length is at most [limit]. *)
Definition within (limit : nat) (body : value) (name : jsstring) : Prop :=
  exists s, field body name = VString s /\ List.length (trim s) <= limit.

(** Check 5: the tone is one of the five values. *)
Definition tone_allowed (body : value) : Prop :=
  exists s, field body (js "tone") = VString s /\ In s TONES.

Definition check1 (b : value) : Prop := present b (js "topic").
Definition check2 (b : value) : Prop := within 200 b (js "topic").
Definition check3 (b : value) : Prop := present b (js "keyPoints").
Definition check4 (b : value) : Prop := within 2000 b (js "keyPoints").
Definition check5 (b : value) : Prop := tone_allowed b.

Definition passes_validation (b : value) : Prop :=
  check1 b /\ check2 b /\ check3 b /\ check4 b /\ check5 b.

Definition rejected (message : jsstring) : list Event * Response :=
  ([], mkResponse (ErrorBody message) 400).

(** The first failing check decides the answer: its message, status 400,
    and no event at all (so no provider call). *)
Definition first_failure_wins (answer : list Event * Response) (b : value) : Prop :=
  (~ check1 b -> answer = rejected MSG_TOPIC_REQUIRED)
  /\ (check1 b -> ~ check2 b -> answer = rejected MSG_TOPIC_LENGTH)
  /\ (check1 b -> check2 b -> ~ check3 b -> answer = rejected MSG_KEYPOINTS_REQUIRED)
  /\ (check1 b -> check2 b -> check3 b -> ~ check4 b ->
      answer = rejected MSG_KEYPOINTS_LENGTH)
  /\ (check1 b -> check2 b -> check3 b -> check4 b -> ~ check5 b ->
      answer = rejected MSG_TONE).

Definition no_provider_call (events : list Event) : Prop :=
  forall p, ~ In (ProviderCall p) events.

(** The text of a field that holds a string. *)
Definition text_of (v : value) : jsstring :=
  match v with VString s => s | _ => [] end.

(** The request the provider receives for a body that passed the checks. *)
Definition params_of (b : value) : MessageCreateParams :=
  create_params
    (build_prompt (trim (text_of (field b (js "topic"))))
                  (trim (text_of (field b (js "keyPoints"))))
                  (text_of (field b (js "tone")))).

(** The failure table of the specification, first matching row first. *)
Definition auth_row (m : jsstring) : Prop :=
  contains m (js "401") \/ contains m (js "authentication").
Definition rate_row (m : jsstring) : Prop :=
  contains m (js "429") \/ contains m (js "rate limit").
Definition timeout_row (m : jsstring) : Prop :=
  contains m (js "timeout").

Definition mapped_by_table (m : jsstring) (r : Response) : Prop :=
  (auth_row m -> r = mkResponse (ErrorBody MSG_INVALID_KEY) 500)
  /\ (~ auth_row m -> rate_row m -> r = mkResponse (ErrorBody MSG_RATE_LIMIT) 429)
  /\ (~ auth_row m -> ~ rate_row m -> timeout_row m ->
      r = mkResponse (ErrorBody MSG_TIMEOUT) 504)
  /\ (~ auth_row m -> ~ rate_row m -> ~ timeout_row m ->
      r = mkResponse (ErrorBody MSG_GENERIC) 500).

(** A run in which the provider is reached and rejects with an [Error]
    whose message is [m]. *)
Definition provider_fails (env : Env) (create : MessageCreateParams -> CreateOutcome)
           (request : NextRequest) (b : value) (m : jsstring) : Prop :=
  json request = inr b
  /\ passes_validation b
  /\ env_truthy (ANTHROPIC_API_KEY env) = true
  /\ create (params_of b) = CreateRejects (ErrorInstance m).

(** A run in which the provider is reached and resolves to [content]. *)
Definition provider_succeeds (env : Env) (create : MessageCreateParams -> CreateOutcome)
           (request : NextRequest) (b : value) (content : list ContentBlock) : Prop :=
  json request = inr b
  /\ passes_validation b
  /\ env_truthy (ANTHROPIC_API_KEY env) = true
  /\ create (params_of b) = CreateResolves content.

(** The first text-typed block of a response, as the specification reads
    the extraction. *)
Fixpoint first_text_block (content : list ContentBlock) : option jsstring :=
  match content with
  | [] => None
  | TextBlock t :: _ => Some t
  | _ :: rest => first_text_block rest
  end.

Definition article_by_spec (content : list ContentBlock) : jsstring :=
  match first_text_block content with
  | Some t => t
  | None => MSG_FALLBACK_ARTICLE
  end.

(** ASCII letters and digits, and the lower-case form of one. *)
Definition is_alnum (c : N) : bool :=
  (((48 <=? c) && (c <=? 57)) || ((65 <=? c) && (c <=? 90))
   || ((97 <=? c) && (c <=? 122)))%N.

Definition lower (c : N) : N :=
  if ((65 <=? c) && (c <=? 90))%N then (c + 32)%N else c.

Definition hyphen : N := 45%N.

(** A letter or digit becomes its lower-case form, anything else a hyphen. *)
Definition slug_unit (c : N) : N := if is_alnum c then lower c else hyphen.

(** The slug of the specification, position by position: as long as the
    first 50 code units of the topic, a letter or digit lower-cased, a
    hyphen anywhere else. *)
Definition slug_by_spec (topic slug : jsstring) : Prop :=
  List.length slug = Nat.min 50 (List.length topic)
  /\ forall i c, nth_error topic i = Some c -> i < 50 ->
       nth_error slug i = Some (slug_unit c).

Definition all_symbols (topic : jsstring) : Prop :=
  forall c, In c topic -> is_alnum c = false.

End Spec.

(** ** Concrete requests, environments and providers *)

Module Sample.
Import JS Route.

Definition body : value :=
  VObject [(js "topic", VString (js "Remote Work"));
           (js "keyPoints", VString (js "productivity, isolation, tooling"));
           (js "tone", VString (js "casual"))].

Definition request : NextRequest := mkRequest (inr body).

Definition body_with_topic (t : jsstring) : value :=
  VObject [(js "topic", VString t);
           (js "keyPoints", VString (js "productivity, isolation, tooling"));
           (js "tone", VString (js "casual"))].

Definition null_request : NextRequest := mkRequest (inr VNull).

Definition blank_topic_body : value :=
  VObject [(js "topic", VString (js "   "));
           (js "keyPoints", VString (js "productivity"));
           (js "tone", VString (js "casual"))].

Definition bad_tone_body : value :=
  VObject [(js "topic", VString (js "Remote Work"));
           (js "keyPoints", VString (js "productivity"));
           (js "tone", VString (js "sarcastic"))].

Definition unparsable_request : NextRequest :=
  mkRequest (inl (ErrorInstance (js "Unexpected end of JSON input"))).

Definition env : Env := mkEnv (Some (js "sk-ant-test")).

Definition env_without_key : Env := mkEnv None.

Definition rejecting (m : jsstring) : MessageCreateParams -> CreateOutcome :=
  fun _ => CreateRejects (ErrorInstance m).

Definition resolving (content : list ContentBlock) : MessageCreateParams -> CreateOutcome :=
  fun _ => CreateResolves content.

Definition article_text : jsstring := js "# Remote Work".

End Sample.

Module SamplePage.
Import JS Page.

Definition form (t : jsstring) : GenerateRequest :=
  mkFormData t (js "productivity, isolation, tooling") (js "casual").

(** A state reached after a generation at time 1700000000000. *)
Definition state_with_topic (t : jsstring) : State :=
  mkState (form t) (js "# Remote Work") false [] 1700000000000 false false.

Definition ready : State := state_with_topic (js "Remote Work").

Definition answering (outcome : FetchOutcome) : FetchRequest -> FetchOutcome :=
  fun _ => outcome.

Definition server_error : FetchOutcome :=
  FetchResolves false
    (inr (mkData [] (Some (js "Rate limit exceeded. Please wait a moment and try again.")))).

Definition server_success : FetchOutcome :=
  FetchResolves true (inr (mkData (js "# Remote Work, again") None)).

(** One letter followed by 200 spaces: 201 code units, 1 once trimmed. *)
Definition padded_topic : jsstring := js "a" ++ repeat 32%N 200.

Definition blank_topic : jsstring := repeat 32%N 201.

End SamplePage.

(* ================================================================= *)
(** ** The other handlers of [page.tsx]                               *)
(* ================================================================= *)

Module PageActions.
Import JS Page.

Definition setFormData (v : GenerateRequest) (s : State) : State :=
  mkState v (generatedArticle s) (isLoading s) (error s) (lastGenerated s)
          (copySuccess s) (downloadSuccess s).
Definition setCopySuccess (v : bool) (s : State) : State :=
  mkState (formData s) (generatedArticle s) (isLoading s) (error s) (lastGenerated s)
          v (downloadSuccess s).
Definition setDownloadSuccess (v : bool) (s : State) : State :=
  mkState (formData s) (generatedArticle s) (isLoading s) (error s) (lastGenerated s)
          (copySuccess s) v.

(** [keyof GenerateRequest]. *)
Inductive Field : Type := FTopic | FKeyPoints | FTone.

(** [{ ...prev, [field]: value }]. *)
Definition with_field (field : Field) (value : jsstring) (prev : GenerateRequest)
  : GenerateRequest :=
  match field with
  | FTopic => mkFormData value (keyPoints prev) (tone prev)
  | FKeyPoints => mkFormData (topic prev) value (tone prev)
  | FTone => mkFormData (topic prev) (keyPoints prev) value
  end.

(** [data[field]]. *)
Definition field_value (field : Field) (data : GenerateRequest) : jsstring :=
  match field with
  | FTopic => topic data
  | FKeyPoints => keyPoints data
  | FTone => tone data
  end.

Definition Field_eqb (f g : Field) : bool :=
  match f, g with
  | FTopic, FTopic | FKeyPoints, FKeyPoints | FTone, FTone => true
  | _, _ => false
  end.

(** A code unit of [a-z], [0-9] or the hyphen. *)
Definition file_name_unit (c : N) : bool :=
  (((48 <=? c) && (c <=? 57)) || ((97 <=? c) && (c <=? 122)) || (c =? 45))%N.

(** [handleInputChange] (lines 39-42). *)
Definition handleInputChange (field : Field) (value : jsstring) (s : State) : State :=
  setError [] (setFormData (with_field field value (formData s)) s).

(** [TONE_OPTIONS] (lines 18-24): value and label. *)
Definition TONE_OPTIONS : list (jsstring * jsstring) :=
  [(js "professional", js "Professional");
   (js "casual", js "Casual");
   (js "academic", js "Academic");
   (js "creative", js "Creative");
   (js "conversational", js "Conversational")].

(** The callbacks handed to [setTimeout] (lines 113-115 and 134-136). *)
Inductive TimerCallback : Type :=
| ClearCopySuccess
| ClearDownloadSuccess.

Definition run_timer (cb : TimerCallback) (s : State) : State :=
  match cb with
  | ClearCopySuccess => setCopySuccess false s
  | ClearDownloadSuccess => setDownloadSuccess false s
  end.

(** What a handler asks of the browser. *)
Inductive Effect : Type :=
| ClipboardWriteText (text : jsstring)
| SetTimeout (cb : TimerCallback) (delay : Z)
| SaveFile (name content mime : jsstring).

(** [await navigator.clipboard.writeText(text)]: the promise resolves or
    rejects, or [navigator.clipboard] is undefined and the call itself
    raises. *)
Inductive ClipboardOutcome : Type :=
| WriteResolves
| WriteRejects (e : Thrown)
| ClipboardMissing.

Definition ERR_COPY : jsstring :=
  js "Failed to copy to clipboard. Please try again or use Ctrl+C/Cmd+C.".
Definition ERR_DOWNLOAD : jsstring :=
  js "Failed to download file. Please try again.".

(** [copyToClipboard] (lines 106-119). *)
Definition copyToClipboard (clipboard : jsstring -> ClipboardOutcome) (s : State)
  : State * list Effect :=
  match clipboard (generatedArticle s) with
  | WriteResolves =>
      (setError [] (setCopySuccess true s),
       [ClipboardWriteText (generatedArticle s); SetTimeout ClearCopySuccess 2000])
  | WriteRejects _ =>
      (setError ERR_COPY s, [ClipboardWriteText (generatedArticle s)])
  | ClipboardMissing =>
      (setError ERR_COPY s, [])
  end.

(** The DOM calls of lines 123-131 all return, or one of them raises,
    before or after [a.click()] has started the download. *)
Inductive DomOutcome : Type :=
| DomCompletes
| DomRaisesBeforeClick (e : Thrown)
| DomRaisesAfterClick (e : Thrown).

(** [downloadMarkdown] (lines 121-140). *)
Definition downloadMarkdown (dom : DomOutcome) (s : State) : State * list Effect :=
  let file :=
    SaveFile (downloadMarkdown_name s) (generatedArticle s) (js "text/markdown") in
  match dom with
  | DomCompletes =>
      (setDownloadSuccess true s, [file; SetTimeout ClearDownloadSuccess 2000])
  | DomRaisesBeforeClick _ => (setError ERR_DOWNLOAD s, [])
  | DomRaisesAfterClick _ => (setError ERR_DOWNLOAD s, [file])
  end.

(** What the user, the network and the timers can do to the page. *)
Inductive UiEvent : Type :=
| TypeTopic (v : jsstring)
| TypeKeyPoints (v : jsstring)
| SelectTone (v : jsstring)
| Submit (fetch : FetchRequest -> FetchOutcome) (now now' : Z)
| EditDraft (v : jsstring)
| ClickCopy (clipboard : jsstring -> ClipboardOutcome)
| ClickDownload (dom : DomOutcome)
| TimerFires (cb : TimerCallback).

(** The markup of lines 154-338: the three inputs and the submit button
    are [disabled] while loading, the text inputs carry [maxLength] 200 and
    2000, the select offers the values of [TONE_OPTIONS], and the draft, the
    copy button and the download button are rendered only when
    [generatedArticle] is non-empty. *)
Definition enabled (s : State) (e : UiEvent) : bool :=
  match e with
  | TypeTopic v => negb (isLoading s) && Nat.leb (List.length v) 200
  | TypeKeyPoints v => negb (isLoading s) && Nat.leb (List.length v) 2000
  | SelectTone v =>
      negb (isLoading s) && existsb (fun o => str_eqb (fst o) v) TONE_OPTIONS
  | Submit _ _ _ => negb (isLoading s)
  | EditDraft _ | ClickCopy _ | ClickDownload _ => negb (str_falsy (generatedArticle s))
  | TimerFires _ => true
  end.

(** The handler each event runs. *)
Definition handle (e : UiEvent) (s : State) : State :=
  match e with
  | TypeTopic v => handleInputChange FTopic v s
  | TypeKeyPoints v => handleInputChange FKeyPoints v s
  | SelectTone v => handleInputChange FTone v s
  | Submit fetch now now' => fst (handleSubmit fetch now now' s)
  | EditDraft v => setGeneratedArticle v s
  | ClickCopy clipboard => fst (copyToClipboard clipboard s)
  | ClickDownload dom => fst (downloadMarkdown dom s)
  | TimerFires cb => run_timer cb s
  end.

(** The states the page can be in, from its first render on. *)
Inductive reachable : State -> Prop :=
| reach_initial : reachable initial_state
| reach_event (s : State) (e : UiEvent) :
    reachable s -> enabled s e = true -> reachable (handle e s).

(** What the markup guarantees of the form, and that no handler is left
    loading. *)
Definition form_within_the_markup (s : State) : Prop :=
  In (tone (formData s)) Route.TONES
  /\ List.length (topic (formData s)) <= 200
  /\ List.length (keyPoints (formData s)) <= 2000
  /\ isLoading s = false.

End PageActions.

(* ================================================================= *)
(** ** The page in front of the endpoint                               *)
(* ================================================================= *)

Module EndToEnd.
Import JS.

(** The value [request.json()] parses from [JSON.stringify(formData)]:
    an object with the three keys in the order of the interface. *)
Definition body_of_payload (p : Page.GenerateRequest) : value :=
  VObject [(js "topic", VString (Page.topic p));
           (js "keyPoints", VString (Page.keyPoints p));
           (js "tone", VString (Page.tone p))].

(** [response.ok]: the status is in the range 200-299. *)
Definition response_ok (status : Z) : bool :=
  ((200 <=? status) && (status <=? 299))%Z.

(** The body [response.json()] parses from what [NextResponse.json] sent.
    An error body has no [article]; the page does not read it then. *)
Definition data_of_response (r : Route.Response) : Page.GenerateResponse :=
  match Route.body r with
  | Route.ArticleBody a => Page.mkData a None
  | Route.ErrorBody e => Page.mkData [] (Some e)
  end.

(** [fetch('/api/generate', ...)] served by [POST], when the request and
    the response both get through. *)
Definition fetch_generate (env : Route.Env)
           (create : Route.MessageCreateParams -> Route.CreateOutcome)
  : Page.FetchRequest -> Page.FetchOutcome :=
  fun req =>
    let answer :=
      snd (Route.POST env create
             (Route.mkRequest (inr (body_of_payload (Page.payload req))))) in
    Page.FetchResolves (response_ok (Route.status answer))
                       (inr (data_of_response answer)).

End EndToEnd.

(* ================================================================= *)
(** ** String primitives: what they compute                            *)
(* ================================================================= *)

Section StringFacts.
Import JS Spec.

Lemma str_eqb_eq (a b : jsstring) : str_eqb a b = true <-> a = b.
Proof.
  revert b; induction a as [|x a IH]; intros [|y b]; simpl; split;
    try congruence; try reflexivity.
  - intros H. apply andb_true_iff in H as [Hx Hab].
    apply N.eqb_eq in Hx. apply IH in Hab. congruence.
  - intros H. injection H as -> ->.
    rewrite N.eqb_refl. simpl. now apply IH.
Qed.

Lemma str_eqb_refl (a : jsstring) : str_eqb a a = true.
Proof. now apply str_eqb_eq. Qed.

Lemma startsWith_prefix (s pat : jsstring) :
  startsWith s pat = true <-> exists post, s = pat ++ post.
Proof.
  revert s; induction pat as [|p pat IH]; intros s; simpl.
  - split; [intros _; now exists s | reflexivity].
  - destruct s as [|c s].
    + split; [discriminate | intros [post H]; discriminate].
    + rewrite andb_true_iff, N.eqb_eq, IH. split.
      * intros [-> [post ->]]. now exists post.
      * intros [post H]. injection H as -> ->. split; [reflexivity | now exists post].
Qed.

(** [includes] decides the substring relation. *)
Lemma includes_contains (s pat : jsstring) :
  includes s pat = true <-> contains s pat.
Proof.
  unfold contains. induction s as [|c s IH].
  - simpl. rewrite orb_false_r, startsWith_prefix. split.
    + intros [post H]. now exists [], post.
    + intros [pre [post H]]. destruct pre as [|x pre]; [|discriminate].
      now exists post.
  - cbn [includes]. rewrite orb_true_iff, startsWith_prefix, IH. split.
    + intros [[post H] | [pre [post H]]].
      * now exists [], post.
      * exists (c :: pre), post. simpl. now rewrite H.
    + intros [pre [post H]]. destruct pre as [|x pre].
      * left. now exists post.
      * right. injection H as _ H. now exists pre, post.
Qed.

Lemma includes_false (s pat : jsstring) :
  includes s pat = false <-> ~ contains s pat.
Proof.
  rewrite <- includes_contains. destruct (includes s pat); split; congruence.
Qed.

Lemma slice_prefix (s : jsstring) (n : nat) :
  slice s 0 (Z.of_nat n) = firstn n s.
Proof.
  unfold slice.
  replace (0 <? 0)%Z with false by reflexivity.
  replace (Z.of_nat n <? 0)%Z with false by (symmetry; apply Z.ltb_ge; lia).
  rewrite (Z.min_l 0) by lia. rewrite Z.sub_0_r. cbn [Z.to_nat skipn].
  destruct (Z.min_spec (Z.of_nat n) (Z.of_nat (List.length s))) as [[H ->] | [H ->]].
  - now rewrite Nat2Z.id.
  - rewrite Nat2Z.id. rewrite firstn_all. symmetry. apply firstn_all2. lia.
Qed.

End StringFacts.

(* ================================================================= *)
(** ** The endpoint: validation, credential, provider, failure mapping *)
(* ================================================================= *)

Section RouteFacts.
Import JS Route Spec.

Variable env : Env.
Variable create : MessageCreateParams -> CreateOutcome.

Lemma bind_pure {A B} (a : A) (f : A -> M B) : bind ([], inr a) f = f a.
Proof. unfold bind. now destruct (f a). Qed.

Lemma bind_ret {A B} (a : A) (f : A -> M B) : bind (ret a) f = f a.
Proof. apply bind_pure. Qed.

Lemma destructure_fields (b : value) :
  b <> VNull -> b <> VUndefined ->
  destructure b = ret (field b (js "topic"), field b (js "keyPoints"), field b (js "tone")).
Proof. intros Hn Hu. destruct b; try reflexivity; congruence. Qed.

Lemma missing_or_blank_present (b : value) (name : jsstring) :
  present b name -> missing_or_blank (field b name) = ret false.
Proof.
  intros [s [-> Hs]]. unfold missing_or_blank.
  destruct s as [|c s]; [now elim Hs|].
  cbn [truthy negb typeof is_string_tag call_trim]. rewrite bind_ret.
  destruct (trim (c :: s)); [now elim Hs | reflexivity].
Qed.

Lemma missing_or_blank_absent (b : value) (name : jsstring) :
  ~ present b name -> missing_or_blank (field b name) = ret true.
Proof.
  unfold present, missing_or_blank. intros H.
  destruct (field b name) as [| |x|n|s|l|l]; try reflexivity.
  - destruct x; reflexivity.
  - cbn [truthy]. destruct (n =? 0)%Z; reflexivity.
  - destruct s as [|c s]; [reflexivity|].
    cbn [truthy negb typeof is_string_tag call_trim]. rewrite bind_ret.
    destruct (trim (c :: s)) eqn:E; [reflexivity|].
    elim H. exists (c :: s). split; [reflexivity | congruence].
Qed.

Lemma present_not_nullish (b : value) (name : jsstring) :
  present b name -> b <> VNull /\ b <> VUndefined.
Proof. intros [s [H _]]. split; intros ->; discriminate. Qed.

Lemma too_long (limit : nat) (b : value) (name : jsstring) (s : jsstring) :
  field b name = VString s ->
  Nat.ltb limit (List.length (trim s)) = true <-> ~ within limit b name.
Proof.
  intros Hf. rewrite Nat.ltb_lt. unfold within. split.
  - intros Hlt [s' [Hs' Hle]]. rewrite Hf in Hs'. injection Hs' as <-. lia.
  - intros Hn. destruct (Nat.lt_ge_cases limit (List.length (trim s))) as [|Hle];
      [assumption|]. elim Hn. now exists s.
Qed.

Lemma short_enough (limit : nat) (b : value) (name : jsstring) (s : jsstring) :
  field b name = VString s -> within limit b name ->
  Nat.ltb limit (List.length (trim s)) = false.
Proof.
  intros Hf Hw. destruct (Nat.ltb limit (List.length (trim s))) eqn:E; [|reflexivity].
  apply (@too_long limit b name s Hf) in E. contradiction.
Qed.

Lemma tone_check (b : value) :
  negb (truthy (field b (js "tone"))) || negb (array_includes TONES (field b (js "tone")))
  = false <-> tone_allowed b.
Proof.
  unfold tone_allowed, array_includes.
  rewrite orb_false_iff, !negb_false_iff. split.
  - intros [_ H]. apply existsb_exists in H as [lit [Hin Heq]].
    destruct (field b (js "tone")) as [| | | |s| |]; try discriminate.
    apply str_eqb_eq in Heq as <-. now exists lit.
  - intros [s [-> Hin]]. split.
    + destruct s; [|reflexivity]. exfalso.
      repeat (destruct Hin as [Hin|Hin]; [discriminate|]). exact Hin.
    + apply existsb_exists. exists s. split; [assumption | apply str_eqb_refl].
Qed.

Lemma tone_check_fails (b : value) :
  ~ tone_allowed b ->
  negb (truthy (field b (js "tone"))) || negb (array_includes TONES (field b (js "tone")))
  = true.
Proof.
  intros H.
  destruct (negb (truthy (field b (js "tone")))
            || negb (array_includes TONES (field b (js "tone")))) eqn:E;
    [reflexivity|].
  apply tone_check in E. contradiction.
Qed.

(** The [try] block up to the destructuring. *)
Ltac enter_try Hjson Hnull Hundef :=
  unfold POST, try_block;
  rewrite Hjson, bind_pure, (destructure_fields Hnull Hundef), bind_ret.

(** A check on presence that passes, and one on length that passes. *)
Ltac pass_present H :=
  rewrite (missing_or_blank_present H), bind_ret.
Ltac pass_within Hp Hw :=
  let s := fresh "s" in
  let Hf := fresh "Hf" in
  let Hs := fresh "Hs" in
  destruct Hp as [s [Hf Hs]];
  rewrite Hf; cbn [call_trim]; rewrite bind_ret;
  rewrite (@short_enough _ _ _ _ Hf Hw).
Ltac fail_within Hp Hw :=
  let s := fresh "s" in
  let Hf := fresh "Hf" in
  let Hs := fresh "Hs" in
  destruct Hp as [s [Hf Hs]];
  rewrite Hf; cbn [call_trim]; rewrite bind_ret;
  rewrite (proj2 (@too_long _ _ _ _ Hf) Hw).

Lemma validation_messages_distinct :
  NoDup [MSG_TOPIC_REQUIRED; MSG_TOPIC_LENGTH; MSG_KEYPOINTS_REQUIRED;
         MSG_KEYPOINTS_LENGTH; MSG_TONE].
Proof.
  repeat constructor; cbn [In]; intros H;
    repeat (destruct H as [H|H]; [discriminate H|]); exact H.
Qed.

(** The checks in their order, for a body that can be destructured. *)
Lemma checks_in_order (request : NextRequest) (b : value) :
  json request = inr b ->
  b <> VNull -> b <> VUndefined ->
  first_failure_wins (POST env create request) b.
Proof.
  intros Hjson Hnull Hundef.
  unfold first_failure_wins, check1, check2, check3, check4, check5.
  repeat split.
  - intros H1. enter_try Hjson Hnull Hundef.
    rewrite (missing_or_blank_absent H1), bind_ret. reflexivity.
  - intros H1 H2. enter_try Hjson Hnull Hundef.
    pass_present H1. fail_within H1 H2. reflexivity.
  - intros H1 H2 H3. enter_try Hjson Hnull Hundef.
    pass_present H1. pass_within H1 H2.
    rewrite (missing_or_blank_absent H3), bind_ret. reflexivity.
  - intros H1 H2 H3 H4. enter_try Hjson Hnull Hundef.
    pass_present H1. pass_within H1 H2.
    pass_present H3. fail_within H3 H4. reflexivity.
  - intros H1 H2 H3 H4 H5. enter_try Hjson Hnull Hundef.
    pass_present H1. pass_within H1 H2.
    pass_present H3. pass_within H3 H4.
    rewrite (tone_check_fails H5). reflexivity.
Qed.

(** *** Past the checks *)

(** What remains of the [try] block once the five checks have passed. *)
Lemma try_block_valid (request : NextRequest) (b : value) :
  json request = inr b -> passes_validation b ->
  try_block env create request =
  if negb (env_truthy (ANTHROPIC_API_KEY env)) then
    ret (json_response (ErrorBody MSG_NOT_CONFIGURED) 500)
  else
    content <- call_provider create (params_of b) ;;
    first <- first_block content ;;
    ret (json_response
           (ArticleBody
              (if str_eqb (block_type first) (js "text")
               then match first with TextBlock text => text | _ => MSG_FALLBACK_ARTICLE end
               else MSG_FALLBACK_ARTICLE)) 200).
Proof.
  intros Hjson (H1 & H2 & H3 & H4 & H5).
  destruct (present_not_nullish H1) as [Hnull Hundef].
  unfold check1, check2, check3, check4, check5 in *.
  unfold params_of.
  enter_try Hjson Hnull Hundef.
  pass_present H1. pass_within H1 H2.
  pass_present H3. pass_within H3 H4.
  rewrite (proj2 (tone_check b) H5).
  destruct H5 as [n [Hn Hin]]. rewrite Hn.
  cbn [template_string text_of]. rewrite bind_ret. reflexivity.
Qed.

Lemma POST_not_configured (request : NextRequest) (b : value) :
  json request = inr b -> passes_validation b ->
  env_truthy (ANTHROPIC_API_KEY env) = false ->
  POST env create request
  = ([], mkResponse (ErrorBody MSG_NOT_CONFIGURED) 500).
Proof.
  intros Hjson Hv Hkey. unfold POST.
  rewrite (@try_block_valid request b Hjson Hv), Hkey. reflexivity.
Qed.

Lemma POST_provider_rejects (request : NextRequest) (b : value) (e : Thrown) :
  json request = inr b -> passes_validation b ->
  env_truthy (ANTHROPIC_API_KEY env) = true ->
  create (params_of b) = CreateRejects e ->
  POST env create request
  = ([ProviderCall (params_of b); ConsoleError console_label e], catch_block e).
Proof.
  intros Hjson Hv Hkey Hc. unfold POST.
  rewrite (@try_block_valid request b Hjson Hv), Hkey. cbn [negb].
  unfold call_provider. rewrite Hc. reflexivity.
Qed.

Lemma POST_provider_resolves (request : NextRequest) (b : value)
      (first : ContentBlock) (rest : list ContentBlock) :
  json request = inr b -> passes_validation b ->
  env_truthy (ANTHROPIC_API_KEY env) = true ->
  create (params_of b) = CreateResolves (first :: rest) ->
  POST env create request
  = ([ProviderCall (params_of b)],
     mkResponse (ArticleBody (match first with
                              | TextBlock text => text
                              | _ => MSG_FALLBACK_ARTICLE
                              end)) 200).
Proof.
  intros Hjson Hv Hkey Hc. unfold POST.
  rewrite (@try_block_valid request b Hjson Hv), Hkey. cbn [negb].
  unfold call_provider. rewrite Hc.
  destruct first; reflexivity.
Qed.

Lemma POST_provider_resolves_empty (request : NextRequest) (b : value) :
  json request = inr b -> passes_validation b ->
  env_truthy (ANTHROPIC_API_KEY env) = true ->
  create (params_of b) = CreateResolves [] ->
  POST env create request
  = ([ProviderCall (params_of b);
      ConsoleError console_label (ErrorInstance read_undefined_message)],
     mkResponse (ErrorBody MSG_GENERIC) 500).
Proof.
  intros Hjson Hv Hkey Hc. unfold POST.
  rewrite (@try_block_valid request b Hjson Hv), Hkey. cbn [negb].
  unfold call_provider. rewrite Hc. reflexivity.
Qed.

(** *** The checks are decidable *)

Lemma present_dec (b : value) (name : jsstring) :
  present b name \/ ~ present b name.
Proof.
  unfold present. destruct (field b name) as [| | | |s| |];
    try (right; intros [s' [H _]]; discriminate).
  destruct (trim s) eqn:E.
  - right. intros [s' [H Hs]]. injection H as <-. congruence.
  - left. exists s. split; [reflexivity | congruence].
Qed.

Lemma within_dec (limit : nat) (b : value) (name : jsstring) :
  within limit b name \/ ~ within limit b name.
Proof.
  unfold within. destruct (field b name) as [| | | |s| |];
    try (right; intros [s' [H _]]; discriminate).
  destruct (Nat.le_gt_cases (List.length (trim s)) limit) as [Hle|Hgt].
  - left. now exists s.
  - right. intros [s' [H Hs]]. injection H as <-. lia.
Qed.

Lemma tone_allowed_dec (b : value) : tone_allowed b \/ ~ tone_allowed b.
Proof.
  destruct (negb (truthy (field b (js "tone")))
            || negb (array_includes TONES (field b (js "tone")))) eqn:E.
  - right. intros H. apply tone_check in H. congruence.
  - left. now apply tone_check.
Qed.

(** A body with fields that fails some check is answered with status 400
    and without any event, whatever the environment holds. *)
Lemma POST_invalid (request : NextRequest) (b : value) :
  json request = inr b -> b <> VNull -> b <> VUndefined ->
  ~ passes_validation b ->
  exists m,
    In m [MSG_TOPIC_REQUIRED; MSG_TOPIC_LENGTH; MSG_KEYPOINTS_REQUIRED;
          MSG_KEYPOINTS_LENGTH; MSG_TONE]
    /\ POST env create request = rejected m.
Proof.
  intros Hjson Hnull Hundef Hbad.
  destruct (@checks_in_order request b Hjson Hnull Hundef)
    as (F1 & F2 & F3 & F4 & F5).
  destruct (present_dec b (js "topic")) as [H1|H1];
    [|eexists; split; [|exact (F1 H1)]; cbn [In]; tauto].
  destruct (within_dec 200 b (js "topic")) as [H2|H2];
    [|eexists; split; [|exact (F2 H1 H2)]; cbn [In]; tauto].
  destruct (present_dec b (js "keyPoints")) as [H3|H3];
    [|eexists; split; [|exact (F3 H1 H2 H3)]; cbn [In]; tauto].
  destruct (within_dec 2000 b (js "keyPoints")) as [H4|H4];
    [|eexists; split; [|exact (F4 H1 H2 H3 H4)]; cbn [In]; tauto].
  destruct (tone_allowed_dec b) as [H5|H5];
    [|eexists; split; [|exact (F5 H1 H2 H3 H4 H5)]; cbn [In]; tauto].
  elim Hbad. repeat split; assumption.
Qed.

(** *** The [catch] block follows the table *)

Lemma catch_block_table (m : jsstring) :
  mapped_by_table m (catch_block (ErrorInstance m)).
Proof.
  unfold mapped_by_table, auth_row, rate_row, timeout_row, catch_block.
  destruct (includes m (js "401")) eqn:E401;
    [apply includes_contains in E401 | apply includes_false in E401];
  (destruct (includes m (js "authentication")) eqn:Eauth;
    [apply includes_contains in Eauth | apply includes_false in Eauth]);
  (destruct (includes m (js "429")) eqn:E429;
    [apply includes_contains in E429 | apply includes_false in E429]);
  (destruct (includes m (js "rate limit")) eqn:Erate;
    [apply includes_contains in Erate | apply includes_false in Erate]);
  (destruct (includes m (js "timeout")) eqn:Etime;
    [apply includes_contains in Etime | apply includes_false in Etime]);
  cbn [orb]; repeat split; intros; try reflexivity; tauto.
Qed.

Lemma catch_block_never_400 (e : Thrown) : status (catch_block e) <> 400%Z.
Proof.
  destruct e as [m|v]; unfold catch_block;
    repeat match goal with
           | |- context [if ?c then _ else _] => destruct c
           end; cbn; discriminate.
Qed.

Lemma POST_parse_failure (request : NextRequest) (e : Thrown) :
  json request = inl e ->
  POST env create request = ([ConsoleError console_label e], catch_block e).
Proof.
  intros Hjson. unfold POST, try_block. rewrite Hjson. reflexivity.
Qed.

(** Once the two topic checks have passed, the answer is neither of the
    two topic rejections. *)
Lemma POST_past_topic_checks (request : NextRequest) (b : value) :
  json request = inr b -> check1 b -> check2 b ->
  POST env create request <> rejected MSG_TOPIC_REQUIRED
  /\ POST env create request <> rejected MSG_TOPIC_LENGTH.
Proof.
  intros Hjson H1 H2.
  destruct (present_not_nullish H1) as [Hnull Hundef].
  destruct (@checks_in_order request b Hjson Hnull Hundef)
    as (_ & _ & F3 & F4 & F5).
  destruct (present_dec b (js "keyPoints")) as [H3|H3];
    [|rewrite (F3 H1 H2 H3); split; discriminate].
  destruct (within_dec 2000 b (js "keyPoints")) as [H4|H4];
    [|rewrite (F4 H1 H2 H3 H4); split; discriminate].
  destruct (tone_allowed_dec b) as [H5|H5];
    [|rewrite (F5 H1 H2 H3 H4 H5); split; discriminate].
  assert (Hv : passes_validation b) by (repeat split; assumption).
  unfold POST. rewrite (@try_block_valid request b Hjson Hv).
  destruct (env_truthy (ANTHROPIC_API_KEY env)); cbn [negb].
  - unfold call_provider.
    destruct (create (params_of b)) as [[|first rest]|e]; split; discriminate.
  - split; discriminate.
Qed.

End RouteFacts.

(* ================================================================= *)
(** ** The endpoint: the properties of the specification              *)
(* ================================================================= *)

Section RouteClaims.
Import JS Route Spec.

Lemma sample_body_valid : passes_validation Sample.body.
Proof.
  repeat split; eexists; (split; [reflexivity|]); vm_compute;
    try discriminate; try lia.
  right. left. reflexivity.
Qed.

Lemma sample_fails (m : jsstring) :
  provider_fails Sample.env (Sample.rejecting m) Sample.request Sample.body m.
Proof. repeat split; try reflexivity; apply sample_body_valid. Qed.

Lemma sample_succeeds (content : list ContentBlock) :
  provider_succeeds Sample.env (Sample.resolving content) Sample.request Sample.body
                    content.
Proof. repeat split; try reflexivity; apply sample_body_valid. Qed.

(** What the code keeps of C1: for every request whose body parses to a
    value other than [null], the five input checks are applied in the
    order topic present, topic length, key points present, key points
    length, tone; the first failing check decides the answer, which
    carries that check's own message and status 400; the five messages
    are pairwise distinct; and no provider call (no event at all) is
    made. *)
Theorem validation_first_failure_wins
        (env : Env) (create : MessageCreateParams -> CreateOutcome)
        (request : NextRequest) (b : value) :
  json request = inr b ->
  b <> VNull -> b <> VUndefined ->
  first_failure_wins (POST env create request) b
  /\ NoDup [MSG_TOPIC_REQUIRED; MSG_TOPIC_LENGTH; MSG_KEYPOINTS_REQUIRED;
            MSG_KEYPOINTS_LENGTH; MSG_TONE].
Proof.
  intros Hjson Hnull Hundef. split.
  - now apply checks_in_order.
  - exact validation_messages_distinct.
Qed.

(** A body whose topic is blank is answered with the topic message,
    status 400 and no event. *)
Lemma validation_first_failure_wins_witness :
  POST Sample.env (Sample.resolving []) (mkRequest (inr Sample.blank_topic_body))
  = rejected MSG_TOPIC_REQUIRED.
Proof.
  destruct (@validation_first_failure_wins Sample.env (Sample.resolving [])
              (mkRequest (inr Sample.blank_topic_body)) Sample.blank_topic_body)
    as [(F1 & _) _]; [reflexivity | discriminate | discriminate |].
  apply F1. intros [s [H Hs]]. vm_compute in H. injection H as <-.
  apply Hs. reflexivity.
Defined.

(** The bodies that hold no field at all, other than [null]: a number, a
    string, an array, an empty object and a boolean are each answered with
    the topic message, status 400 and no event. *)
Lemma fieldless_bodies_get_the_topic_message (b : value) :
  In b [VNumber 5; VString (js "hello"); VArray []; VObject []; VBool false] ->
  POST Sample.env (Sample.resolving []) (mkRequest (inr b))
  = rejected MSG_TOPIC_REQUIRED.
Proof.
  cbn [In]. intros [<-|[<-|[<-|[<-|[<-|[]]]]]]; reflexivity.
Qed.

(** C1, at the failing input: the body [null] is valid JSON with no
    topic, so the first check fails on it, yet the answer is the generic
    failure with status 500 (the destructuring of line 28 raises before
    any check runs) and not the topic message with status 400. *)
Lemma null_body_is_not_rejected_with_400 :
  json Sample.null_request = inr VNull
  /\ snd (POST Sample.env (Sample.resolving []) Sample.null_request)
     = mkResponse (ErrorBody MSG_GENERIC) 500
  /\ ~ first_failure_wins (POST Sample.env (Sample.resolving []) Sample.null_request)
                          VNull.
Proof.
  split; [reflexivity|]. split; [reflexivity|].
  intros (F1 & _).
  assert (H1 : ~ check1 VNull) by (intros [s [H _]]; discriminate H).
  specialize (F1 H1). vm_compute in F1. discriminate F1.
Qed.

(** C2. For every failure raised by the provider call with message [m],
    the response follows the table, first matching row first: "401" or
    "authentication" gives the invalid-credential message with 500; else
    "429" or "rate limit" gives the rate-limit message with 429; else
    "timeout" gives the timeout message with 504; else the generic message
    with 500. The response depends on the message only: another run,
    with any other environment, provider and valid body, that fails with
    the same message gets the same response. *)
Theorem provider_failure_mapping
        (env : Env) (create : MessageCreateParams -> CreateOutcome)
        (request : NextRequest) (b : value) (m : jsstring) :
  provider_fails env create request b m ->
  mapped_by_table m (snd (POST env create request))
  /\ forall env' create' request' b',
       provider_fails env' create' request' b' m ->
       snd (POST env' create' request') = snd (POST env create request).
Proof.
  intros (Hjson & Hv & Hkey & Hc).
  rewrite (@POST_provider_rejects env create request b _ Hjson Hv Hkey Hc). cbn [snd]. split.
  - apply catch_block_table.
  - intros env' create' request' b' (Hjson' & Hv' & Hkey' & Hc').
    now rewrite (@POST_provider_rejects env' create' request' b' _ Hjson' Hv' Hkey' Hc').
Qed.

(** Witness of C2: the provider rejects with "rate limit exceeded". *)
Lemma provider_failure_mapping_witness :
  snd (POST Sample.env (Sample.rejecting (js "rate limit exceeded")) Sample.request)
  = mkResponse (ErrorBody MSG_RATE_LIMIT) 429.
Proof.
  destruct (@provider_failure_mapping Sample.env
              (Sample.rejecting (js "rate limit exceeded"))
              Sample.request Sample.body (js "rate limit exceeded")
              (sample_fails _)) as [(_ & Hrate & _) _].
  apply Hrate.
  - intros [H|H]; apply includes_contains in H; discriminate H.
  - right. apply includes_contains. reflexivity.
Defined.

(** Counterexample to C3 as stated: a provider failure whose message
    contains "429" and also "authentication" is answered with the
    invalid-credential message and status 500, not with 429. *)
Lemma message_with_429_and_authentication_gets_500 :
  let m := js "429 while refreshing authentication" in
  provider_fails Sample.env (Sample.rejecting m) Sample.request Sample.body m
  /\ contains m (js "429")
  /\ snd (POST Sample.env (Sample.rejecting m) Sample.request)
     = mkResponse (ErrorBody MSG_INVALID_KEY) 500
  /\ snd (POST Sample.env (Sample.rejecting m) Sample.request)
     <> mkResponse (ErrorBody MSG_RATE_LIMIT) 429.
Proof.
  cbv zeta. split; [apply sample_fails|]. split.
  - apply includes_contains. reflexivity.
  - split; [reflexivity | vm_compute; discriminate].
Qed.

(** C3 (amended). For every provider failure whose message contains
    "429" and contains neither "401" nor "authentication", the endpoint
    returns status 429 with the rate-limit message, whether or not
    "timeout" or anything else is also present in the message. *)
Theorem rate_limit_unless_authentication
        (env : Env) (create : MessageCreateParams -> CreateOutcome)
        (request : NextRequest) (b : value) (m : jsstring) :
  provider_fails env create request b m ->
  contains m (js "429") ->
  ~ contains m (js "401") ->
  ~ contains m (js "authentication") ->
  snd (POST env create request) = mkResponse (ErrorBody MSG_RATE_LIMIT) 429.
Proof.
  intros (Hjson & Hv & Hkey & Hc) H429 H401 Hauth.
  rewrite (@POST_provider_rejects env create request b _ Hjson Hv Hkey Hc).
  cbn [snd]. destruct (catch_block_table m) as (_ & Hrate & _).
  apply Hrate.
  - unfold auth_row. tauto.
  - now left.
Qed.

(** Witness of C3: "429" together with "timeout" still gives 429. *)
Lemma rate_limit_unless_authentication_witness :
  snd (POST Sample.env (Sample.rejecting (js "429 after a timeout")) Sample.request)
  = mkResponse (ErrorBody MSG_RATE_LIMIT) 429.
Proof.
  apply (@rate_limit_unless_authentication Sample.env
           (Sample.rejecting (js "429 after a timeout"))
           Sample.request Sample.body (js "429 after a timeout")).
  - apply sample_fails.
  - apply includes_contains. reflexivity.
  - intros H. apply includes_contains in H. discriminate H.
  - intros H. apply includes_contains in H. discriminate H.
Defined.

(** What the code keeps of C4: for every request that passes the five
    input checks, when no credential is configured (the variable is unset
    or empty) the answer is the "not configured" message with status 500
    and no event, so the provider is never called; that message differs
    from every other message of the endpoint. The credential is consulted
    after the checks: a body other than [null] that fails one of them is
    still answered with status 400 and no event when the credential is
    missing. *)
Theorem credential_checked_after_validation
        (env : Env) (create : MessageCreateParams -> CreateOutcome)
        (request : NextRequest) (b : value) :
  json request = inr b ->
  env_truthy (ANTHROPIC_API_KEY env) = false ->
  (passes_validation b ->
   POST env create request = ([], mkResponse (ErrorBody MSG_NOT_CONFIGURED) 500)
   /\ no_provider_call (fst (POST env create request)))
  /\ (b <> VNull -> b <> VUndefined -> ~ passes_validation b ->
      exists m,
        In m [MSG_TOPIC_REQUIRED; MSG_TOPIC_LENGTH; MSG_KEYPOINTS_REQUIRED;
              MSG_KEYPOINTS_LENGTH; MSG_TONE]
        /\ POST env create request = ([], mkResponse (ErrorBody m) 400))
  /\ ~ In MSG_NOT_CONFIGURED
         [MSG_TOPIC_REQUIRED; MSG_TOPIC_LENGTH; MSG_KEYPOINTS_REQUIRED;
          MSG_KEYPOINTS_LENGTH; MSG_TONE; MSG_INVALID_KEY; MSG_RATE_LIMIT;
          MSG_TIMEOUT; MSG_GENERIC].
Proof.
  intros Hjson Hkey. repeat split.
  - now apply (@POST_not_configured env create request b).
  - rewrite (@POST_not_configured env create request b Hjson H Hkey).
    intros p [].
  - intros Hnull Hundef Hbad.
    exact (@POST_invalid env create request b Hjson Hnull Hundef Hbad).
  - cbn [In]. intros H.
    repeat (destruct H as [H|H]; [discriminate H|]). exact H.
Qed.

(** The sample request without a key, and a request with a wrong tone
    without a key. *)
Lemma credential_checked_after_validation_witness :
  POST Sample.env_without_key (Sample.resolving []) Sample.request
  = ([], mkResponse (ErrorBody MSG_NOT_CONFIGURED) 500)
  /\ exists m,
       In m [MSG_TOPIC_REQUIRED; MSG_TOPIC_LENGTH; MSG_KEYPOINTS_REQUIRED;
             MSG_KEYPOINTS_LENGTH; MSG_TONE]
       /\ POST Sample.env_without_key (Sample.resolving [])
               (mkRequest (inr Sample.bad_tone_body))
          = ([], mkResponse (ErrorBody m) 400).
Proof.
  split.
  - apply (@credential_checked_after_validation Sample.env_without_key
             (Sample.resolving []) Sample.request Sample.body);
      [reflexivity | reflexivity | apply sample_body_valid].
  - apply (@credential_checked_after_validation Sample.env_without_key
             (Sample.resolving []) (mkRequest (inr Sample.bad_tone_body))
             Sample.bad_tone_body);
      [reflexivity | reflexivity | discriminate | discriminate |].
    intros (_ & _ & _ & _ & [s [H Hin]]).
    vm_compute in H. injection H as <-.
    repeat (destruct Hin as [Hin|Hin]; [discriminate Hin|]). exact Hin.
Defined.

(** C4, at the failing input: with no credential configured, the body
    [null] is invalid input (it passes none of the five checks), yet the
    answer is the generic failure with status 500, logged by the [catch]
    block, and not a validation message with status 400. *)
Lemma null_body_without_credential_gets_500 :
  json Sample.null_request = inr VNull
  /\ env_truthy (ANTHROPIC_API_KEY Sample.env_without_key) = false
  /\ ~ passes_validation VNull
  /\ POST Sample.env_without_key (Sample.resolving []) Sample.null_request
     = ([ConsoleError console_label (ErrorInstance destructure_null_message)],
        mkResponse (ErrorBody MSG_GENERIC) 500)
  /\ status (snd (POST Sample.env_without_key (Sample.resolving [])
                       Sample.null_request)) <> 400%Z.
Proof.
  split; [reflexivity|]. split; [reflexivity|]. split.
  - intros ([s [H _]] & _). discriminate H.
  - split; [reflexivity | discriminate].
Qed.

(** Counterexample to C5 as stated: the response holds a thinking block
    followed by a text block; its first text-typed block is the text,
    yet the article returned is the fallback literal. *)
Lemma text_after_another_block_is_ignored :
  let content := [ThinkingBlock (js "outline"); TextBlock Sample.article_text] in
  provider_succeeds Sample.env (Sample.resolving content) Sample.request Sample.body
                    content
  /\ article_by_spec content = Sample.article_text
  /\ snd (POST Sample.env (Sample.resolving content) Sample.request)
     = mkResponse (ArticleBody MSG_FALLBACK_ARTICLE) 200
  /\ snd (POST Sample.env (Sample.resolving content) Sample.request)
     <> mkResponse (ArticleBody (article_by_spec content)) 200.
Proof.
  cbv zeta. split; [apply sample_succeeds|].
  split; [reflexivity|]. split; [reflexivity|].
  vm_compute. discriminate.
Qed.

(** C5 (amended). For every successful provider response that holds at
    least one content block, the endpoint returns status 200 after one
    provider call, with the article set to the text of the first content
    block when that block is text-typed, and to the literal "Failed to
    generate article content" when it is not (in particular when the
    response holds no text-typed block at all). *)
Theorem article_from_first_block
        (env : Env) (create : MessageCreateParams -> CreateOutcome)
        (request : NextRequest) (b : value)
        (first : ContentBlock) (rest : list ContentBlock) :
  provider_succeeds env create request b (first :: rest) ->
  exists text,
    POST env create request
    = ([ProviderCall (params_of b)], mkResponse (ArticleBody text) 200)
    /\ (forall t, first = TextBlock t -> text = t)
    /\ ((forall t, first <> TextBlock t) -> text = MSG_FALLBACK_ARTICLE)
    /\ (first_text_block (first :: rest) = None -> text = MSG_FALLBACK_ARTICLE).
Proof.
  intros (Hjson & Hv & Hkey & Hc).
  rewrite (@POST_provider_resolves env create request b first rest Hjson Hv Hkey Hc).
  eexists. split; [reflexivity|]. repeat split.
  - intros t ->. reflexivity.
  - intros Hno. destruct first; try reflexivity. now elim (Hno text).
  - intros Hnone. destruct first; try reflexivity. discriminate Hnone.
Qed.

(** Witness of C5: the end-to-end scenario of the specification. *)
Lemma article_from_first_block_witness :
  exists text,
    POST Sample.env (Sample.resolving [TextBlock Sample.article_text]) Sample.request
    = ([ProviderCall (params_of Sample.body)], mkResponse (ArticleBody text) 200)
    /\ text = Sample.article_text.
Proof.
  destruct (@article_from_first_block Sample.env
              (Sample.resolving [TextBlock Sample.article_text])
              Sample.request Sample.body (TextBlock Sample.article_text) []
              (sample_succeeds _)) as [text (HP & Htext & _)].
  exists text. split; [exact HP | now apply Htext].
Defined.

(** C9. For every request whose body is not valid JSON, the answer is
    never a 400: the parse failure goes through the same failure table
    as a provider failure, no provider call is made, and when the parse
    error's message contains none of "401", "authentication", "429",
    "rate limit", "timeout" the answer is the generic failure message
    with status 500. *)
Theorem parse_failure_is_not_a_validation_error
        (env : Env) (create : MessageCreateParams -> CreateOutcome)
        (request : NextRequest) (m : jsstring) :
  json request = inl (ErrorInstance m) ->
  status (snd (POST env create request)) <> 400%Z
  /\ no_provider_call (fst (POST env create request))
  /\ mapped_by_table m (snd (POST env create request))
  /\ (~ contains m (js "401") -> ~ contains m (js "authentication") ->
      ~ contains m (js "429") -> ~ contains m (js "rate limit") ->
      ~ contains m (js "timeout") ->
      snd (POST env create request) = mkResponse (ErrorBody MSG_GENERIC) 500).
Proof.
  intros Hjson.
  rewrite (@POST_parse_failure env create request _ Hjson). cbn [fst snd].
  split; [apply catch_block_never_400|].
  split; [intros p [H|[]]; discriminate H|].
  split; [apply catch_block_table|].
  intros H401 Hauth H429 Hrate Htime.
  destruct (catch_block_table m) as (_ & _ & _ & Hgeneric).
  apply Hgeneric; unfold auth_row, rate_row, timeout_row; tauto.
Qed.

(** Witness of C9: "Unexpected end of JSON input". *)
Lemma parse_failure_is_not_a_validation_error_witness :
  snd (POST Sample.env (Sample.resolving []) Sample.unparsable_request)
  = mkResponse (ErrorBody MSG_GENERIC) 500.
Proof.
  apply (@parse_failure_is_not_a_validation_error Sample.env (Sample.resolving [])
           Sample.unparsable_request (js "Unexpected end of JSON input"));
    [reflexivity | ..];
    intros H; apply includes_contains in H; discriminate H.
Defined.

End RouteClaims.

(* ================================================================= *)
(** ** The form controller: file name, validation, submission         *)
(* ================================================================= *)

Section PageFacts.
Import JS Page Spec.

(** A property of the code units below a bound, checked by enumeration. *)
Lemma below_by_enumeration (P : N -> bool) (bound : nat) :
  forallb P (range_members 0 bound) = true ->
  forall c, (c < N.of_nat bound)%N -> P c = true.
Proof.
  intros Hall c Hc. rewrite forallb_forall in Hall. apply Hall.
  assert (Hmem : forall n lo, (lo <= c)%N -> (c < lo + N.of_nat n)%N ->
                              In c (range_members lo n)).
  { induction n as [|n IH]; intros lo Hlo Hhi; [lia|].
    cbn [range_members In].
    destruct (N.eq_dec lo c) as [->|Hne]; [now left|].
    right. apply IH; lia. }
  apply Hmem; lia.
Qed.

Lemma canonical_member_ascii (a : N) :
  In a (class_members NOT_ALNUM) -> (Canonicalize a < 128)%N.
Proof.
  intros Hin.
  assert (Hall : forallb (fun x => (Canonicalize x <? 128)%N)
                         (class_members NOT_ALNUM) = true) by reflexivity.
  rewrite forallb_forall in Hall. apply N.ltb_lt. now apply Hall.
Qed.

(** Without the [u] flag, [/[^a-z0-9]/i] matches exactly the code units
    that are not ASCII letters or digits. *)
Lemma not_alnum_class (c : N) :
  class_matches NOT_ALNUM c = negb (is_alnum c).
Proof.
  destruct (N.lt_ge_cases c 128) as [Hlt|Hge].
  - apply Bool.eqb_prop.
    apply (@below_by_enumeration
             (fun x => Bool.eqb (class_matches NOT_ALNUM x) (negb (is_alnum x))) 128);
      [vm_compute; reflexivity | exact Hlt].
  - assert (Hno : is_alnum c = false).
    { unfold is_alnum.
      replace (c <=? 57)%N with false by (symmetry; apply N.leb_gt; lia).
      replace (c <=? 90)%N with false by (symmetry; apply N.leb_gt; lia).
      replace (c <=? 122)%N with false by (symmetry; apply N.leb_gt; lia).
      now rewrite !andb_false_r. }
    rewrite Hno. unfold class_matches. cbn [invert ignoreCase NOT_ALNUM negb].
    f_equal.
    destruct (existsb (fun a => (Canonicalize a =? Canonicalize c)%N)
                      (class_members NOT_ALNUM)) eqn:E; [|reflexivity].
    apply existsb_exists in E as [a [Hin Heq]]. apply N.eqb_eq in Heq.
    pose proof (@canonical_member_ascii a Hin) as Ha.
    assert (Hc : Canonicalize c = c).
    { unfold Canonicalize.
      replace (c <=? 122)%N with false by (symmetry; apply N.leb_gt; lia).
      now rewrite andb_false_r. }
    rewrite Hc in Heq. lia.
Qed.

Lemma slug_is_a_map (t : jsstring) :
  toLowerCase (replace_class NOT_ALNUM (js "-") t) = List.map slug_unit t.
Proof.
  unfold toLowerCase, replace_class.
  induction t as [|c t IH]; [reflexivity|].
  cbn [flat_map]. rewrite List.map_app, IH, not_alnum_class.
  cbn [List.map]. unfold slug_unit at 2.
  destruct (is_alnum c); reflexivity.
Qed.

(** The operand of [toLowerCase] in line 127 holds ASCII code units only. *)
Lemma slug_source_ascii (t : jsstring) :
  Forall (fun c => (c < 128)%N) (replace_class NOT_ALNUM (js "-") t).
Proof.
  unfold replace_class. apply Forall_forall. intros c Hin.
  apply in_flat_map in Hin as [x [_ Hx]].
  rewrite not_alnum_class in Hx. destruct (is_alnum x) eqn:E; cbn [negb] in Hx.
  - destruct Hx as [<-|[]]. unfold is_alnum in E.
    destruct (N.lt_ge_cases x 128) as [|Hge]; [assumption|].
    replace (x <=? 57)%N with false in E by (symmetry; apply N.leb_gt; lia).
    replace (x <=? 90)%N with false in E by (symmetry; apply N.leb_gt; lia).
    replace (x <=? 122)%N with false in E by (symmetry; apply N.leb_gt; lia).
    rewrite !andb_false_r in E. discriminate E.
  - destruct Hx as [<-|[]]. reflexivity.
Qed.

Lemma download_name_eq (s : State) :
  downloadMarkdown_name s
  = (if str_falsy (List.map slug_unit (firstn 50 (topic (formData s))))
     then js "article"
     else List.map slug_unit (firstn 50 (topic (formData s)))) ++ js ".md".
Proof.
  unfold downloadMarkdown_name.
  change 50%Z with (Z.of_nat 50). rewrite slice_prefix, slug_is_a_map. reflexivity.
Qed.

Lemma mapped_prefix_by_spec (t : jsstring) :
  slug_by_spec t (List.map slug_unit (firstn 50 t)).
Proof.
  split.
  - now rewrite length_map, length_firstn.
  - intros i c Hc Hi. rewrite nth_error_map, nth_error_firstn.
    replace (i <? 50) with true by (symmetry; apply Nat.ltb_lt; exact Hi).
    now rewrite Hc.
Qed.

Lemma all_symbols_slug (t : jsstring) :
  all_symbols t ->
  List.map slug_unit (firstn 50 t) = repeat hyphen (Nat.min 50 (List.length t)).
Proof.
  intros Hsym. rewrite <- length_firstn, <- map_const.
  apply map_ext_in. intros c Hin. unfold slug_unit.
  rewrite (Hsym c); [reflexivity|].
  rewrite <- (firstn_skipn 50 t). apply in_or_app. now left.
Qed.

End PageFacts.

Section PageClaims.
Import JS Page Spec.

(** Counterexample to C6 as stated: the topic "!!!" holds symbols only,
    and the file name is "---.md", not "article.md". *)
Lemma all_symbol_topic_is_not_article :
  let s := SamplePage.state_with_topic (js "!!!") in
  all_symbols (topic (formData s))
  /\ downloadMarkdown_name s = js "---.md"
  /\ downloadMarkdown_name s <> js "article.md".
Proof.
  cbv zeta. split; [|split; [reflexivity | vm_compute; discriminate]].
  intros c Hin. cbn in Hin.
  repeat (destruct Hin as [<-|Hin]; [reflexivity|]). destruct Hin.
Qed.

(** C6 (amended). For every topic, [downloadMarkdown] names the file by
    the first 50 code units of [formData.topic], each ASCII letter or
    digit lower-cased and every other code unit replaced by a hyphen, the
    literal "article" standing in when that slug is empty, with ".md"
    appended. In particular "AI Ethics & Society!" yields
    "ai-ethics---society-.md" and the empty topic yields "article.md";
    a non-empty topic made of symbols only yields one hyphen per code
    unit (at most 50) followed by ".md". *)
Theorem download_file_name (s : State) :
  (exists slug,
      slug_by_spec (topic (formData s)) slug
      /\ downloadMarkdown_name s
         = (if str_falsy slug then js "article" else slug) ++ js ".md")
  /\ (topic (formData s) = js "AI Ethics & Society!" ->
      downloadMarkdown_name s = js "ai-ethics---society-.md")
  /\ (topic (formData s) = [] -> downloadMarkdown_name s = js "article.md")
  /\ (topic (formData s) <> [] -> all_symbols (topic (formData s)) ->
      downloadMarkdown_name s
      = repeat hyphen (Nat.min 50 (List.length (topic (formData s)))) ++ js ".md").
Proof.
  repeat split.
  - exists (List.map slug_unit (firstn 50 (topic (formData s)))).
    split; [apply mapped_prefix_by_spec | apply download_name_eq].
  - intros Ht. rewrite download_name_eq, Ht. reflexivity.
  - intros Ht. rewrite download_name_eq, Ht. reflexivity.
  - intros Hne Hsym. rewrite download_name_eq, (all_symbols_slug Hsym).
    destruct (topic (formData s)) as [|c t]; [now elim Hne|]. reflexivity.
Qed.

(** Witness of C6: the two topics of the specification and a topic of
    three symbols. *)
Lemma download_file_name_witness :
  downloadMarkdown_name (SamplePage.state_with_topic (js "AI Ethics & Society!"))
  = js "ai-ethics---society-.md"
  /\ downloadMarkdown_name (SamplePage.state_with_topic []) = js "article.md"
  /\ downloadMarkdown_name (SamplePage.state_with_topic (js "!?#"))
     = repeat hyphen 3 ++ js ".md".
Proof.
  split; [|split].
  - apply (download_file_name
             (SamplePage.state_with_topic (js "AI Ethics & Society!"))).
    reflexivity.
  - apply (download_file_name (SamplePage.state_with_topic [])). reflexivity.
  - apply (download_file_name (SamplePage.state_with_topic (js "!?#")));
      [discriminate|].
    intros c Hin. cbn in Hin.
    repeat (destruct Hin as [<-|Hin]; [reflexivity|]). destruct Hin.
Defined.

(** *** [validateForm] and [handleSubmit], case by case *)

Lemma validateForm_true (s : State) :
  fst (validateForm s) = true -> validateForm s = (true, s).
Proof.
  unfold validateForm.
  repeat match goal with
         | |- context [if ?c then _ else _] => destruct c
         end; cbn [fst]; intros H; try discriminate H; reflexivity.
Qed.

Lemma validateForm_keeps (s : State) :
  formData (snd (validateForm s)) = formData s
  /\ lastGenerated (snd (validateForm s)) = lastGenerated s
  /\ generatedArticle (snd (validateForm s)) = generatedArticle s
  /\ isLoading (snd (validateForm s)) = isLoading s.
Proof.
  unfold validateForm.
  repeat match goal with
         | |- context [if ?c then _ else _] => destruct c
         end; repeat split.
Qed.

Lemma handleSubmit_invalid (fetch : FetchRequest -> FetchOutcome)
      (now now' : Z) (s : State) :
  fst (validateForm s) = false ->
  handleSubmit fetch now now' s = (snd (validateForm s), []).
Proof.
  intros H. unfold handleSubmit.
  destruct (validateForm s) as [valid s1]. cbn [fst] in H. subst valid.
  reflexivity.
Qed.

Lemma handleSubmit_cooldown (fetch : FetchRequest -> FetchOutcome)
      (now now' : Z) (s : State) :
  fst (validateForm s) = true ->
  (now - lastGenerated s < 3000)%Z ->
  handleSubmit fetch now now' s = (setError ERR_WAIT s, []).
Proof.
  intros Hv Hlt. unfold handleSubmit. rewrite (@validateForm_true s Hv).
  cbn [negb]. apply Z.ltb_lt in Hlt. rewrite Hlt. reflexivity.
Qed.

Lemma handleSubmit_proceeds (fetch : FetchRequest -> FetchOutcome)
      (now now' : Z) (s : State) :
  fst (validateForm s) = true ->
  (3000 <= now - lastGenerated s)%Z ->
  handleSubmit fetch now now' s
  = (setIsLoading false
       (let s2 := setGeneratedArticle [] (setError [] (setIsLoading true s)) in
        match submit_try (fetch (generate_request s)) now' s2 with
        | inr s' => s'
        | inl err => submit_catch err s2
        end),
     [generate_request s]).
Proof.
  intros Hv Hge. unfold handleSubmit. rewrite (@validateForm_true s Hv).
  cbn [negb]. apply Z.ltb_ge in Hge. rewrite Hge. reflexivity.
Qed.


Lemma validateForm_depends_on_form (s s' : State) :
  formData s' = formData s -> fst (validateForm s') = fst (validateForm s).
Proof.
  intros H. unfold validateForm. rewrite H.
  repeat match goal with
         | |- context [if ?c then _ else _] => destruct c
         end; reflexivity.
Qed.

Lemma handleSubmit_keeps_form (fetch : FetchRequest -> FetchOutcome)
      (now now' : Z) (s : State) :
  formData (fst (handleSubmit fetch now now' s)) = formData s.
Proof.
  destruct (fst (validateForm s)) eqn:Hv.
  - destruct (Z.lt_ge_cases (now - lastGenerated s) 3000) as [Hlt|Hge].
    + now rewrite (@handleSubmit_cooldown fetch now now' s Hv Hlt).
    + rewrite (@handleSubmit_proceeds fetch now now' s Hv Hge). cbn [fst].
      destruct (fetch (generate_request s)) as [e|[|] [e|data]]; reflexivity.
  - rewrite (@handleSubmit_invalid fetch now now' s Hv). cbn [fst].
    apply validateForm_keeps.
Qed.





(** C8, at the failing input: a valid form outside the cooldown window,
    and a response that indicates failure (not [ok]) whose body is an HTML
    page, so that [response.json()] rejects. The response provides no
    error message, yet [error] ends as the parser's text and not as the
    fallback "Failed to generate article" that a failure response with a
    JSON body and no [error] gets. *)
Lemma unparsable_failure_response_shows_the_parser_text :
  let parser_text := js "Unexpected token < in JSON at position 0" in
  let html_502 := FetchResolves false (inl (ErrorInstance parser_text)) in
  let json_502 := FetchResolves false (inr (mkData [] None)) in
  fst (validateForm SamplePage.ready) = true
  /\ (3000 <= 1700000005000 - lastGenerated SamplePage.ready)%Z
  /\ error (fst (handleSubmit (SamplePage.answering json_502)
                              1700000005000 1700000005500 SamplePage.ready))
     = ERR_FAILED
  /\ error (fst (handleSubmit (SamplePage.answering html_502)
                              1700000005000 1700000005500 SamplePage.ready))
     = parser_text
  /\ error (fst (handleSubmit (SamplePage.answering html_502)
                              1700000005000 1700000005500 SamplePage.ready))
     <> ERR_FAILED.
Proof.
  cbv zeta. split; [reflexivity|]. split; [discriminate|].
  split; [reflexivity|]. split; [reflexivity|].
  vm_compute. discriminate.
Qed.

(** What the code keeps of C8: for every [handleSubmit] that passes
    validation and the cooldown: when the response indicates failure and
    its body parses, [error] holds the response's error message, or the
    generic fallback when none is provided, and [generatedArticle] is
    left empty; when the [fetch] or the parsing rejects, [error] holds the
    thrown message; when it succeeds,
    [generatedArticle] holds the returned article and [lastGenerated] is
    the current time; and in every case (success, server failure,
    transport failure) [isLoading] is false at the end. *)
Theorem submit_outcomes
        (fetch : FetchRequest -> FetchOutcome) (now now' : Z) (s : State) :
  fst (validateForm s) = true ->
  (3000 <= now - lastGenerated s)%Z ->
  isLoading (fst (handleSubmit fetch now now' s)) = false
  /\ (forall data,
        fetch (generate_request s) = FetchResolves false (inr data) ->
        generatedArticle (fst (handleSubmit fetch now now' s)) = []
        /\ lastGenerated (fst (handleSubmit fetch now now' s)) = lastGenerated s
        /\ (forall m, error_field data = Some m -> m <> [] ->
                      error (fst (handleSubmit fetch now now' s)) = m)
        /\ (error_field data = None \/ error_field data = Some [] ->
            error (fst (handleSubmit fetch now now' s)) = ERR_FAILED))
  /\ (forall data,
        fetch (generate_request s) = FetchResolves true (inr data) ->
        generatedArticle (fst (handleSubmit fetch now now' s)) = article data
        /\ lastGenerated (fst (handleSubmit fetch now now' s)) = now'
        /\ error (fst (handleSubmit fetch now now' s)) = [])
  /\ (forall e,
        (fetch (generate_request s) = FetchRejects e
         \/ exists ok, fetch (generate_request s) = FetchResolves ok (inl e)) ->
        generatedArticle (fst (handleSubmit fetch now now' s)) = []
        /\ lastGenerated (fst (handleSubmit fetch now now' s)) = lastGenerated s
        /\ error (fst (handleSubmit fetch now now' s))
           = match e with
             | ErrorInstance message => message
             | NotAnError _ => ERR_UNEXPECTED
             end).
Proof.
  intros Hv Hge. rewrite (@handleSubmit_proceeds fetch now now' s Hv Hge).
  cbn [fst]. split; [reflexivity|]. split; [|split].
  - intros data ->. cbn. split; [reflexivity|]. split; [reflexivity|].
    unfold error_or_default. split.
    + intros m -> Hm. destruct m; [now elim Hm | reflexivity].
    + intros [-> | ->]; reflexivity.
  - intros data ->. repeat split.
  - intros e [-> | [ok ->]]; repeat split.
Qed.

(** Five seconds after a generation, a server that answers with an error
    body, and a server that answers with an article. *)
Lemma submit_outcomes_witness :
  error (fst (handleSubmit (SamplePage.answering SamplePage.server_error)
                           1700000005000 1700000005500 SamplePage.ready))
  = js "Rate limit exceeded. Please wait a moment and try again."
  /\ generatedArticle
       (fst (handleSubmit (SamplePage.answering SamplePage.server_success)
                          1700000005000 1700000005500 SamplePage.ready))
     = js "# Remote Work, again".
Proof.
  split.
  - destruct (@submit_outcomes (SamplePage.answering SamplePage.server_error)
                1700000005000 1700000005500 SamplePage.ready)
      as (_ & Hfail & _); [reflexivity | discriminate |].
    destruct (Hfail _ eq_refl) as (_ & _ & Hmsg & _).
    apply Hmsg; [reflexivity | discriminate].
  - destruct (@submit_outcomes (SamplePage.answering SamplePage.server_success)
                1700000005000 1700000005500 SamplePage.ready)
      as (_ & _ & Hok & _); [reflexivity | discriminate |].
    now destruct (Hok _ eq_refl) as (Harticle & _).
Defined.

(** Counterexample to C10 as stated: a topic of 201 spaces is longer
    than 200, and [validateForm] answers false with "Please enter a
    topic", not with the length error. *)
Lemma blank_long_topic_gets_the_empty_error :
  let s := SamplePage.state_with_topic SamplePage.blank_topic in
  200 < List.length (topic (formData s))
  /\ validateForm s = (false, setError ERR_TOPIC_EMPTY s)
  /\ error (snd (validateForm s)) <> ERR_TOPIC_LENGTH.
Proof.
  cbv zeta. split; [vm_compute; lia|]. split; [reflexivity|].
  vm_compute. discriminate.
Qed.

(** C10 (amended). [validateForm] compares the untrimmed length with the
    limit while the server compares the trimmed length: for every topic
    that is not blank and whose untrimmed length exceeds 200,
    [validateForm] returns false and sets the length error; this
    includes the topics whose trimmed length is at most 200, which pass
    the server's two topic checks and are not answered with the server's
    topic-length error. *)
Theorem client_counts_untrimmed_length (s : State) :
  trim (topic (formData s)) <> [] ->
  200 < List.length (topic (formData s)) ->
  validateForm s = (false, setError ERR_TOPIC_LENGTH s)
  /\ (List.length (trim (topic (formData s))) <= 200 ->
      forall env create request b,
        Route.json request = inr b ->
        Route.field b (js "topic") = VString (topic (formData s)) ->
        check1 b /\ check2 b
        /\ Route.POST env create request <> rejected Route.MSG_TOPIC_LENGTH).
Proof.
  intros Hblank Hlong. split.
  - unfold validateForm.
    destruct (trim (topic (formData s))) eqn:E; [now elim Hblank|].
    cbn [str_falsy]. apply Nat.ltb_lt in Hlong. now rewrite Hlong.
  - intros Hshort env create request b Hjson Hfield.
    assert (H1 : check1 b) by (exists (topic (formData s)); now split).
    assert (H2 : check2 b) by (exists (topic (formData s)); now split).
    split; [exact H1|]. split; [exact H2|].
    apply (@POST_past_topic_checks env create request b Hjson H1 H2).
Qed.

(** Witness of C10: a letter followed by 200 spaces is refused by the
    client for its length and is not refused by the server. *)
Lemma client_counts_untrimmed_length_witness :
  validateForm (SamplePage.state_with_topic SamplePage.padded_topic)
  = (false, setError ERR_TOPIC_LENGTH
                     (SamplePage.state_with_topic SamplePage.padded_topic))
  /\ Route.POST Sample.env (Sample.resolving [])
                (Route.mkRequest (inr (Sample.body_with_topic SamplePage.padded_topic)))
     <> rejected Route.MSG_TOPIC_LENGTH.
Proof.
  destruct (@client_counts_untrimmed_length
              (SamplePage.state_with_topic SamplePage.padded_topic))
    as [Hclient Hserver].
  - vm_compute. discriminate.
  - vm_compute. lia.
  - split; [exact Hclient|].
    apply (Hserver ltac:(vm_compute; lia) Sample.env (Sample.resolving [])
             (Route.mkRequest (inr (Sample.body_with_topic SamplePage.padded_topic)))
             (Sample.body_with_topic SamplePage.padded_topic));
      reflexivity.
Defined.

End PageClaims.

(* ================================================================= *)
(** ** The endpoint as a whole: every run, every response             *)
(* ================================================================= *)

Section RouteExtras.
Import JS Route Spec.

Lemma passes_validation_dec (b : value) :
  passes_validation b \/ ~ passes_validation b.
Proof.
  unfold passes_validation, check1, check2, check3, check4, check5.
  destruct (present_dec b (js "topic")); [|right; tauto].
  destruct (within_dec 200 b (js "topic")); [|right; tauto].
  destruct (present_dec b (js "keyPoints")); [|right; tauto].
  destruct (within_dec 2000 b (js "keyPoints")); [|right; tauto].
  destruct (tone_allowed_dec b); [left|right]; tauto.
Qed.

Lemma POST_nullish (env : Env) (create : MessageCreateParams -> CreateOutcome)
      (request : NextRequest) (b : value) :
  json request = inr b -> b = VNull \/ b = VUndefined ->
  exists e, POST env create request = ([ConsoleError console_label e], catch_block e).
Proof.
  intros Hjson [-> | ->]; unfold POST, try_block; rewrite Hjson;
    eexists; reflexivity.
Qed.

(** The five ways a run of [POST] can go. *)
Lemma POST_cases (env : Env) (create : MessageCreateParams -> CreateOutcome)
      (request : NextRequest) :
  (exists e, (forall b, json request = inr b -> ~ passes_validation b)
             /\ POST env create request
                = ([ConsoleError console_label e], catch_block e))
  \/ (exists b m, json request = inr b /\ ~ passes_validation b
                  /\ In m [MSG_TOPIC_REQUIRED; MSG_TOPIC_LENGTH; MSG_KEYPOINTS_REQUIRED;
                           MSG_KEYPOINTS_LENGTH; MSG_TONE]
                  /\ POST env create request = rejected m)
  \/ (exists b, json request = inr b /\ passes_validation b
                /\ env_truthy (ANTHROPIC_API_KEY env) = false
                /\ POST env create request
                   = ([], mkResponse (ErrorBody MSG_NOT_CONFIGURED) 500))
  \/ (exists b e, json request = inr b /\ passes_validation b
                  /\ env_truthy (ANTHROPIC_API_KEY env) = true
                  /\ POST env create request
                     = ([ProviderCall (params_of b); ConsoleError console_label e],
                        catch_block e))
  \/ (exists b text, json request = inr b /\ passes_validation b
                     /\ env_truthy (ANTHROPIC_API_KEY env) = true
                     /\ POST env create request
                        = ([ProviderCall (params_of b)],
                           mkResponse (ArticleBody text) 200)).
Proof.
  destruct (json request) as [e|b] eqn:Hjson.
  - left. exists e. split; [intros b Hb; discriminate Hb|].
    now apply POST_parse_failure.
  - destruct (passes_validation_dec b) as [Hv|Hbad].
    + destruct (env_truthy (ANTHROPIC_API_KEY env)) eqn:Hkey.
      * destruct (create (params_of b)) as [[|first rest]|e] eqn:Hc.
        -- right. right. right. left.
           exists b, (ErrorInstance read_undefined_message).
           split; [reflexivity|]. split; [exact Hv|]. split; [reflexivity|].
           exact (@POST_provider_resolves_empty env create request b Hjson Hv Hkey Hc).
        -- right. right. right. right. eexists b, _.
           split; [reflexivity|]. split; [exact Hv|]. split; [reflexivity|].
           exact (@POST_provider_resolves env create request b first rest
                    Hjson Hv Hkey Hc).
        -- right. right. right. left. exists b, e.
           split; [reflexivity|]. split; [exact Hv|]. split; [reflexivity|].
           exact (@POST_provider_rejects env create request b e Hjson Hv Hkey Hc).
      * right. right. left. exists b.
        split; [reflexivity|]. split; [exact Hv|]. split; [reflexivity|].
        exact (@POST_not_configured env create request b Hjson Hv Hkey).
    + assert (Hnullish : b = VNull \/ b = VUndefined \/ (b <> VNull /\ b <> VUndefined)).
      { destruct b; try (right; right; split; discriminate); tauto. }
      destruct Hnullish as [Hn | [Hu | [Hn Hu]]].
      * left. destruct (@POST_nullish env create request b Hjson (or_introl Hn))
          as [e He].
        exists e. split; [|exact He]. intros b' Hb'. injection Hb' as <-. exact Hbad.
      * left. destruct (@POST_nullish env create request b Hjson (or_intror Hu))
          as [e He].
        exists e. split; [|exact He]. intros b' Hb'. injection Hb' as <-. exact Hbad.
      * right. left.
        destruct (@POST_invalid env create request b Hjson Hn Hu Hbad) as [m [Hin HP]].
        exists b, m. split; [reflexivity|]. split; [exact Hbad|].
        split; [exact Hin | exact HP].
Qed.

Lemma catch_block_range (e : Thrown) :
  In (catch_block e)
     [mkResponse (ErrorBody MSG_INVALID_KEY) 500;
      mkResponse (ErrorBody MSG_RATE_LIMIT) 429;
      mkResponse (ErrorBody MSG_TIMEOUT) 504;
      mkResponse (ErrorBody MSG_GENERIC) 500].
Proof.
  destruct e as [m|v]; unfold catch_block, json_response;
    repeat match goal with
           | |- context [if ?c then _ else _] => destruct c
           end; cbn [In]; tauto.
Qed.

Lemma POST_response_table
      (env : Env) (create : MessageCreateParams -> CreateOutcome)
      (request : NextRequest) :
  (exists text, snd (POST env create request) = mkResponse (ArticleBody text) 200)
  \/ In (snd (POST env create request))
        [mkResponse (ErrorBody MSG_TOPIC_REQUIRED) 400;
         mkResponse (ErrorBody MSG_TOPIC_LENGTH) 400;
         mkResponse (ErrorBody MSG_KEYPOINTS_REQUIRED) 400;
         mkResponse (ErrorBody MSG_KEYPOINTS_LENGTH) 400;
         mkResponse (ErrorBody MSG_TONE) 400;
         mkResponse (ErrorBody MSG_NOT_CONFIGURED) 500;
         mkResponse (ErrorBody MSG_INVALID_KEY) 500;
         mkResponse (ErrorBody MSG_RATE_LIMIT) 429;
         mkResponse (ErrorBody MSG_TIMEOUT) 504;
         mkResponse (ErrorBody MSG_GENERIC) 500].
Proof.
  destruct (POST_cases env create request)
    as [[e [_ HP]] | [[b [m (_ & _ & Hin & HP)]] | [[b (_ & _ & _ & HP)]
       | [[b [e (_ & _ & _ & HP)]] | [b [text (_ & _ & _ & HP)]]]]]];
    rewrite HP; cbn [snd].
  - right. destruct (catch_block_range e) as [H|[H|[H|[H|[]]]]];
      rewrite <- H; cbn [In]; tauto.
  - right. cbn [In] in Hin.
    destruct Hin as [<-|[<-|[<-|[<-|[<-|[]]]]]]; cbn [In]; tauto.
  - right. cbn [In]. tauto.
  - right. destruct (catch_block_range e) as [H|[H|[H|[H|[]]]]];
      rewrite <- H; cbn [In]; tauto.
  - left. now exists text.
Qed.

(** Where a 200 article comes from: the first content block of the
    message the provider resolved to. *)
Lemma POST_article_origin
      (env : Env) (create : MessageCreateParams -> CreateOutcome)
      (request : NextRequest) (text : jsstring) :
  snd (POST env create request) = mkResponse (ArticleBody text) 200 ->
  exists b first rest,
    json request = inr b
    /\ create (params_of b) = CreateResolves (first :: rest)
    /\ (first = TextBlock text
        \/ ((forall t, first <> TextBlock t) /\ text = MSG_FALLBACK_ARTICLE)).
Proof.
  destruct (POST_cases env create request)
    as [[e [_ HP]] | [[b [m (_ & _ & _ & HP)]] | [[b (_ & _ & _ & HP)]
       | [[b [e (_ & _ & _ & HP)]] | [b [text' (Hjson & Hv & Hkey & HP)]]]]]];
    rewrite HP; cbn [snd]; intros H.
  - destruct (catch_block_range e) as [E|[E|[E|[E|[]]]]];
      rewrite <- E in H; discriminate H.
  - discriminate H.
  - discriminate H.
  - destruct (catch_block_range e) as [E|[E|[E|[E|[]]]]];
      rewrite <- E in H; discriminate H.
  - injection H as ->.
    destruct (create (params_of b)) as [[|first rest]|e] eqn:Hc.
    + rewrite (@POST_provider_resolves_empty env create request b Hjson Hv Hkey Hc)
        in HP. discriminate HP.
    + rewrite (@POST_provider_resolves env create request b first rest
                 Hjson Hv Hkey Hc) in HP.
      exists b, first, rest. split; [exact Hjson|]. split; [exact Hc|].
      injection HP as HP. destruct first; try (right; split; [discriminate|congruence]).
      left. congruence.
    + rewrite (@POST_provider_rejects env create request b e Hjson Hv Hkey Hc) in HP.
      discriminate HP.
Qed.

(** X1. Whatever the request and the environment, and whether the
    provider resolves, rejects with an [Error] or rejects with another
    value, the response is one of two kinds. Either it is status 200 with
    an article, and then the provider resolved and the article is the text
    of the first content block of its message, or the fallback literal
    when that block is not text-typed. Or it is one of ten fixed pairs of
    error message and status (400, 429, 500 or 504). So the message of a
    raised error never reaches the response. *)
Theorem responses_come_from_a_fixed_table
        (env : Env) (create : MessageCreateParams -> CreateOutcome)
        (request : NextRequest) :
  (exists b first rest text,
      json request = inr b
      /\ create (params_of b) = CreateResolves (first :: rest)
      /\ (first = TextBlock text
          \/ ((forall t, first <> TextBlock t) /\ text = MSG_FALLBACK_ARTICLE))
      /\ snd (POST env create request) = mkResponse (ArticleBody text) 200)
  \/ In (snd (POST env create request))
        [mkResponse (ErrorBody MSG_TOPIC_REQUIRED) 400;
         mkResponse (ErrorBody MSG_TOPIC_LENGTH) 400;
         mkResponse (ErrorBody MSG_KEYPOINTS_REQUIRED) 400;
         mkResponse (ErrorBody MSG_KEYPOINTS_LENGTH) 400;
         mkResponse (ErrorBody MSG_TONE) 400;
         mkResponse (ErrorBody MSG_NOT_CONFIGURED) 500;
         mkResponse (ErrorBody MSG_INVALID_KEY) 500;
         mkResponse (ErrorBody MSG_RATE_LIMIT) 429;
         mkResponse (ErrorBody MSG_TIMEOUT) 504;
         mkResponse (ErrorBody MSG_GENERIC) 500].
Proof.
  destruct (POST_response_table env create request) as [[text Htext] | Hin];
    [left | right; exact Hin].
  destruct (@POST_article_origin env create request text Htext)
    as [b [first [rest (Hjson & Hc & Hfirst)]]].
  exists b, first, rest, text. repeat (split; [assumption|]). exact Htext.
Qed.

(** A body that passes the checks is never answered with status 400, and
    its error, if any, is one of five. *)
Lemma POST_valid_response
      (env : Env) (create : MessageCreateParams -> CreateOutcome)
      (request : NextRequest) (b : value) :
  json request = inr b -> passes_validation b ->
  (exists text, snd (POST env create request) = mkResponse (ArticleBody text) 200)
  \/ In (snd (POST env create request))
        [mkResponse (ErrorBody MSG_NOT_CONFIGURED) 500;
         mkResponse (ErrorBody MSG_INVALID_KEY) 500;
         mkResponse (ErrorBody MSG_RATE_LIMIT) 429;
         mkResponse (ErrorBody MSG_TIMEOUT) 504;
         mkResponse (ErrorBody MSG_GENERIC) 500].
Proof.
  intros Hjson Hv.
  destruct (POST_cases env create request)
    as [[e [Hno _]] | [[b' [m (Hj & Hbad & _)]] | [[b' (_ & _ & _ & HP)]
       | [[b' [e (_ & _ & _ & HP)]] | [b' [text (_ & _ & _ & HP)]]]]]].
  - now elim (Hno b Hjson).
  - rewrite Hjson in Hj. injection Hj as <-. contradiction.
  - rewrite HP. right. cbn [snd In]. tauto.
  - rewrite HP. right. cbn [snd].
    destruct (catch_block_range e) as [H|[H|[H|[H|[]]]]];
      rewrite <- H; cbn [In]; tauto.
  - rewrite HP. left. now exists text.
Qed.

Lemma provider_call_inversion
      (env : Env) (create : MessageCreateParams -> CreateOutcome)
      (request : NextRequest) (p : MessageCreateParams) :
  In (ProviderCall p) (fst (POST env create request)) ->
  exists b rest,
    json request = inr b
    /\ passes_validation b
    /\ env_truthy (ANTHROPIC_API_KEY env) = true
    /\ p = params_of b
    /\ fst (POST env create request) = ProviderCall p :: rest
    /\ no_provider_call rest.
Proof.
  destruct (POST_cases env create request)
    as [[e [_ HP]] | [[b [m (_ & _ & _ & HP)]] | [[b (_ & _ & _ & HP)]
       | [[b [e (Hjson & Hv & Hkey & HP)]] | [b [text (Hjson & Hv & Hkey & HP)]]]]]];
    rewrite HP; cbn [fst]; intros Hin.
  - destruct Hin as [H|[]]; discriminate H.
  - destruct Hin.
  - destruct Hin.
  - destruct Hin as [H|[H|[]]]; [|discriminate H]. injection H as <-.
    exists b, [ConsoleError console_label e].
    repeat (split; [assumption || reflexivity|]).
    intros q [H|[]]; discriminate H.
  - destruct Hin as [H|[]]. injection H as <-.
    exists b, []. repeat (split; [assumption || reflexivity|]).
    intros q [].
Qed.

(** X2. The provider is called only for a body that passed the five
    checks, with a credential configured, with the request built from that
    body, and at most once per request. *)
Theorem provider_called_only_on_validated_input
        (env : Env) (create : MessageCreateParams -> CreateOutcome)
        (request : NextRequest) (p : MessageCreateParams) :
  In (ProviderCall p) (fst (POST env create request)) ->
  exists b rest,
    json request = inr b
    /\ passes_validation b
    /\ env_truthy (ANTHROPIC_API_KEY env) = true
    /\ p = params_of b
    /\ fst (POST env create request) = ProviderCall p :: rest
    /\ no_provider_call rest.
Proof. apply provider_call_inversion. Qed.

(** Witness of X2: the sample request with a provider that answers. *)
Lemma provider_called_only_on_validated_input_witness :
  exists b rest,
    json Sample.request = inr b
    /\ passes_validation b
    /\ env_truthy (ANTHROPIC_API_KEY Sample.env) = true
    /\ params_of Sample.body = params_of b
    /\ fst (POST Sample.env (Sample.resolving [TextBlock Sample.article_text])
                 Sample.request)
       = ProviderCall (params_of Sample.body) :: rest
    /\ no_provider_call rest.
Proof.
  apply (@provider_called_only_on_validated_input Sample.env
           (Sample.resolving [TextBlock Sample.article_text]) Sample.request
           (params_of Sample.body)).
  left. reflexivity.
Defined.


Lemma contains_skip (x s pat : jsstring) :
  contains s pat -> contains (x ++ s) pat.
Proof.
  intros [pre [post ->]]. exists (x ++ pre), post. now rewrite <- app_assoc.
Qed.

Lemma contains_head3 (a b c rest : jsstring) :
  contains (a ++ b ++ c ++ rest) (a ++ b ++ c).
Proof. exists [], rest. cbn [List.app]. now rewrite <- !app_assoc. Qed.

Lemma contains_head4 (a b c d rest : jsstring) :
  contains (a ++ b ++ c ++ d ++ rest) (a ++ b ++ c ++ d).
Proof. exists [], rest. cbn [List.app]. now rewrite <- !app_assoc. Qed.

Lemma prompt_sections (t k n : jsstring) :
  contains (build_prompt t k n) (js "Topic: " ++ t ++ nl)
  /\ contains (build_prompt t k n) (js "Key Points to Cover:" ++ nl ++ k ++ nl)
  /\ contains (build_prompt t k n) (js "Tone/Style: " ++ n ++ nl)
  /\ contains (build_prompt t k n) (js "- Write in " ++ n ++ js " tone").
Proof.
  unfold build_prompt. split; [|split; [|split]].
  - do 3 apply contains_skip. apply contains_head3.
  - do 7 apply contains_skip. apply contains_head4.
  - do 12 apply contains_skip. apply contains_head3.
  - do 18 apply contains_skip. apply contains_head3.
Qed.

(** X4. Every request sent to the provider names the model
    "claude-sonnet-4-5-20250929", allows 4096 tokens, and holds a single
    user message; the prompt in it quotes the topic and the key points
    trimmed, each between 1 and their limit of 200 and 2000 code units,
    and one of the five tones, in the "Tone/Style" line as well as in the
    first requirement. *)
Theorem provider_request_shape
        (env : Env) (create : MessageCreateParams -> CreateOutcome)
        (request : NextRequest) (p : MessageCreateParams) :
  In (ProviderCall p) (fst (POST env create request)) ->
  exists b t k n prompt,
    json request = inr b
    /\ field b (js "topic") = VString t
    /\ field b (js "keyPoints") = VString k
    /\ field b (js "tone") = VString n
    /\ model p = js "claude-sonnet-4-5-20250929"
    /\ max_tokens p = 4096%Z
    /\ messages p = [mkMessage (js "user") prompt]
    /\ contains prompt (js "Topic: " ++ trim t ++ nl)
    /\ contains prompt (js "Key Points to Cover:" ++ nl ++ trim k ++ nl)
    /\ contains prompt (js "Tone/Style: " ++ n ++ nl)
    /\ contains prompt (js "- Write in " ++ n ++ js " tone")
    /\ In n TONES
    /\ 1 <= List.length (trim t) <= 200
    /\ 1 <= List.length (trim k) <= 2000.
Proof.
  intros Hin.
  destruct (provider_call_inversion env create request p Hin)
    as [b [rest (Hjson & Hv & _ & -> & _)]].
  destruct Hv as ([t [Ht Htne]] & [t2 [Ht2 Htle]] & [k [Hk Hkne]]
                  & [k2 [Hk2 Hkle]] & [n [Hn Hnin]]).
  rewrite Ht in Ht2. injection Ht2 as <-. rewrite Hk in Hk2. injection Hk2 as <-.
  exists b, t, k, n, (build_prompt (trim t) (trim k) n).
  unfold params_of. rewrite Ht, Hk, Hn. cbn [text_of].
  destruct (prompt_sections (trim t) (trim k) n) as (P1 & P2 & P3 & P4).
  split; [exact Hjson|]. do 6 (split; [reflexivity|]).
  split; [exact P1|]. split; [exact P2|]. split; [exact P3|]. split; [exact P4|].
  split; [exact Hnin|]. split.
  - destruct (trim t); [now elim Htne | cbn [List.length] in *; lia].
  - destruct (trim k); [now elim Hkne | cbn [List.length] in *; lia].
Qed.

(** Witness of X4: the sample request. *)
Lemma provider_request_shape_witness :
  exists b t k n prompt,
    json Sample.request = inr b
    /\ field b (js "topic") = VString t
    /\ field b (js "keyPoints") = VString k
    /\ field b (js "tone") = VString n
    /\ model (params_of Sample.body) = js "claude-sonnet-4-5-20250929"
    /\ max_tokens (params_of Sample.body) = 4096%Z
    /\ messages (params_of Sample.body) = [mkMessage (js "user") prompt]
    /\ contains prompt (js "Topic: " ++ trim t ++ nl)
    /\ contains prompt (js "Key Points to Cover:" ++ nl ++ trim k ++ nl)
    /\ contains prompt (js "Tone/Style: " ++ n ++ nl)
    /\ contains prompt (js "- Write in " ++ n ++ js " tone")
    /\ In n TONES
    /\ 1 <= List.length (trim t) <= 200
    /\ 1 <= List.length (trim k) <= 2000.
Proof.
  apply (@provider_request_shape Sample.env (Sample.rejecting (js "timeout"))
           Sample.request (params_of Sample.body)).
  left. reflexivity.
Defined.

(** X5. A provider answer that holds no content block at all is not
    turned into an article: reading its first block raises, the error is
    logged, and the response is the generic failure with status 500. *)
Theorem empty_content_is_a_generic_failure
        (env : Env) (create : MessageCreateParams -> CreateOutcome)
        (request : NextRequest) (b : value) :
  provider_succeeds env create request b [] ->
  POST env create request
  = ([ProviderCall (params_of b);
      ConsoleError console_label (ErrorInstance read_undefined_message)],
     mkResponse (ErrorBody MSG_GENERIC) 500).
Proof.
  intros (Hjson & Hv & Hkey & Hc).
  exact (@POST_provider_resolves_empty env create request b Hjson Hv Hkey Hc).
Qed.

(** Witness of X5: the sample request and a provider that answers with an
    empty list. *)
Lemma empty_content_is_a_generic_failure_witness :
  snd (POST Sample.env (Sample.resolving []) Sample.request)
  = mkResponse (ErrorBody MSG_GENERIC) 500.
Proof.
  rewrite (@empty_content_is_a_generic_failure Sample.env (Sample.resolving [])
             Sample.request Sample.body (sample_succeeds [])).
  reflexivity.
Defined.

(** X6. When the provider call rejects with a value that is not an [Error]
    instance, no substring is looked for: the response is the generic
    failure with status 500, whatever the value holds. *)
Theorem non_error_rejection_is_generic
        (env : Env) (create : MessageCreateParams -> CreateOutcome)
        (request : NextRequest) (b v : value) :
  json request = inr b ->
  passes_validation b ->
  env_truthy (ANTHROPIC_API_KEY env) = true ->
  create (params_of b) = CreateRejects (NotAnError v) ->
  POST env create request
  = ([ProviderCall (params_of b); ConsoleError console_label (NotAnError v)],
     mkResponse (ErrorBody MSG_GENERIC) 500).
Proof.
  intros Hjson Hv Hkey Hc.
  exact (@POST_provider_rejects env create request b _ Hjson Hv Hkey Hc).
Qed.

(** Witness of X6: the provider rejects with the string "429". *)
Lemma non_error_rejection_is_generic_witness :
  snd (POST Sample.env (fun _ => CreateRejects (NotAnError (VString (js "429"))))
            Sample.request)
  = mkResponse (ErrorBody MSG_GENERIC) 500.
Proof.
  rewrite (@non_error_rejection_is_generic Sample.env
             (fun _ => CreateRejects (NotAnError (VString (js "429"))))
             Sample.request Sample.body (VString (js "429"))
             eq_refl sample_body_valid eq_refl eq_refl).
  reflexivity.
Defined.

(** *** Whitespace around the two text fields *)

Lemma present_same_trim (b b' : value) (name s s' : jsstring) :
  field b name = VString s -> field b' name = VString s' -> trim s = trim s' ->
  present b name -> present b' name.
Proof.
  intros Hb Hb' Ht [x [Hx Hne]]. rewrite Hb in Hx. injection Hx as <-.
  exists s'. split; [exact Hb' | now rewrite <- Ht].
Qed.

Lemma within_same_trim (limit : nat) (b b' : value) (name s s' : jsstring) :
  field b name = VString s -> field b' name = VString s' -> trim s = trim s' ->
  within limit b name -> within limit b' name.
Proof.
  intros Hb Hb' Ht [x [Hx Hle]]. rewrite Hb in Hx. injection Hx as <-.
  exists s'. split; [exact Hb' | now rewrite <- Ht].
Qed.

Lemma tone_allowed_same (b b' : value) :
  field b (js "tone") = field b' (js "tone") -> tone_allowed b -> tone_allowed b'.
Proof. intros H [n [Hn Hin]]. exists n. split; [now rewrite <- H | exact Hin]. Qed.

(** X7. Whitespace around the topic and around the key points has no
    effect on the endpoint: two bodies whose topics have the same trimmed
    form, whose key points have the same trimmed form and whose tones are
    equal get the same response, with the same provider request and the
    same log. *)
Theorem surrounding_whitespace_is_ignored
        (env : Env) (create : MessageCreateParams -> CreateOutcome)
        (b b' : value) (t t' k k' : jsstring) :
  field b (js "topic") = VString t ->
  field b' (js "topic") = VString t' ->
  trim t = trim t' ->
  field b (js "keyPoints") = VString k ->
  field b' (js "keyPoints") = VString k' ->
  trim k = trim k' ->
  field b (js "tone") = field b' (js "tone") ->
  POST env create (mkRequest (inr b)) = POST env create (mkRequest (inr b')).
Proof.
  intros Ht Ht' Htt Hk Hk' Hkk Hn.
  assert (Hnull : b <> VNull /\ b <> VUndefined)
    by (split; intros ->; discriminate Ht).
  assert (Hnull' : b' <> VNull /\ b' <> VUndefined)
    by (split; intros ->; discriminate Ht').
  destruct Hnull as [N1 N2]. destruct Hnull' as [N1' N2'].
  pose proof (@checks_in_order env create (mkRequest (inr b)) b eq_refl N1 N2)
    as (F1 & F2 & F3 & F4 & F5).
  pose proof (@checks_in_order env create (mkRequest (inr b')) b' eq_refl N1' N2')
    as (G1 & G2 & G3 & G4 & G5).
  unfold check1, check2, check3, check4, check5 in *.
  assert (T1 : present b (js "topic") <-> present b' (js "topic"))
    by (split; eapply present_same_trim; eauto).
  assert (T2 : within 200 b (js "topic") <-> within 200 b' (js "topic"))
    by (split; eapply within_same_trim; eauto).
  assert (T3 : present b (js "keyPoints") <-> present b' (js "keyPoints"))
    by (split; eapply present_same_trim; eauto).
  assert (T4 : within 2000 b (js "keyPoints") <-> within 2000 b' (js "keyPoints"))
    by (split; eapply within_same_trim; eauto).
  assert (T5 : tone_allowed b <-> tone_allowed b')
    by (split; apply tone_allowed_same; congruence).
  destruct (present_dec b (js "topic")) as [H1|H1];
    [|rewrite (F1 H1), (G1 ltac:(tauto)); reflexivity].
  destruct (within_dec 200 b (js "topic")) as [H2|H2];
    [|rewrite (F2 H1 H2), (G2 ltac:(tauto) ltac:(tauto)); reflexivity].
  destruct (present_dec b (js "keyPoints")) as [H3|H3];
    [|rewrite (F3 H1 H2 H3), (G3 ltac:(tauto) ltac:(tauto) ltac:(tauto)); reflexivity].
  destruct (within_dec 2000 b (js "keyPoints")) as [H4|H4];
    [|rewrite (F4 H1 H2 H3 H4),
        (G4 ltac:(tauto) ltac:(tauto) ltac:(tauto) ltac:(tauto)); reflexivity].
  destruct (tone_allowed_dec b) as [H5|H5];
    [|rewrite (F5 H1 H2 H3 H4 H5),
        (G5 ltac:(tauto) ltac:(tauto) ltac:(tauto) ltac:(tauto) ltac:(tauto));
      reflexivity].
  assert (Hv : passes_validation b) by (repeat split; assumption).
  assert (Hv' : passes_validation b') by (repeat split; tauto).
  assert (Hp : params_of b = params_of b').
  { unfold params_of. rewrite Ht, Ht', Hk, Hk', <- Hn. cbn [text_of].
    now rewrite Htt, Hkk. }
  unfold POST.
  rewrite (@try_block_valid env create (mkRequest (inr b)) b eq_refl Hv).
  rewrite (@try_block_valid env create (mkRequest (inr b')) b' eq_refl Hv').
  now rewrite Hp.
Qed.

(** Witness of X7: "  Remote Work " against "Remote Work". *)
Lemma surrounding_whitespace_is_ignored_witness :
  POST Sample.env (Sample.resolving [TextBlock Sample.article_text])
       (mkRequest (inr (Sample.body_with_topic (js "  Remote Work "))))
  = POST Sample.env (Sample.resolving [TextBlock Sample.article_text])
         (mkRequest (inr (Sample.body_with_topic (js "Remote Work")))).
Proof.
  apply (@surrounding_whitespace_is_ignored Sample.env
           (Sample.resolving [TextBlock Sample.article_text])
           (Sample.body_with_topic (js "  Remote Work "))
           (Sample.body_with_topic (js "Remote Work"))
           (js "  Remote Work ") (js "Remote Work")
           (js "productivity, isolation, tooling")
           (js "productivity, isolation, tooling"));
    reflexivity.
Defined.

End RouteExtras.

(* ================================================================= *)
(** ** The page as a whole: its handlers and the states it can reach  *)
(* ================================================================= *)

Section PageExtras.
Import JS Page PageActions Spec.

Lemma trimStart_length (s : jsstring) :
  List.length (trimStart s) <= List.length s.
Proof.
  induction s as [|c s IH]; [reflexivity|].
  cbn [trimStart]. destruct (isWhiteSpace c); cbn [List.length]; lia.
Qed.

Lemma trim_length (s : jsstring) : List.length (trim s) <= List.length s.
Proof.
  unfold trim, trimEnd. rewrite length_rev.
  etransitivity; [apply trimStart_length|]. rewrite length_rev.
  apply trimStart_length.
Qed.

Lemma str_falsy_false (s : jsstring) : str_falsy s = false <-> s <> [].
Proof. destruct s; cbn; split; congruence. Qed.

Lemma str_falsy_true (s : jsstring) : str_falsy s = true <-> s = [].
Proof. destruct s; cbn; split; congruence. Qed.

Ltac validate_cases s :=
  unfold validateForm;
  destruct (str_falsy (trim (topic (formData s)))) eqn:E1;
    [apply str_falsy_true in E1 | apply str_falsy_false in E1];
  [|destruct (Nat.ltb 200 (List.length (topic (formData s)))) eqn:E2;
    [apply Nat.ltb_lt in E2 | apply Nat.ltb_ge in E2];
    [|destruct (str_falsy (trim (keyPoints (formData s)))) eqn:E3;
      [apply str_falsy_true in E3 | apply str_falsy_false in E3];
      [|destruct (Nat.ltb 2000 (List.length (keyPoints (formData s)))) eqn:E4;
        [apply Nat.ltb_lt in E4 | apply Nat.ltb_ge in E4]]]];
  cbn [fst snd].

Lemma validateForm_characterised (s : State) :
  (fst (validateForm s) = true
   <-> trim (topic (formData s)) <> []
       /\ List.length (topic (formData s)) <= 200
       /\ trim (keyPoints (formData s)) <> []
       /\ List.length (keyPoints (formData s)) <= 2000)
  /\ (fst (validateForm s) = true -> snd (validateForm s) = s)
  /\ (fst (validateForm s) = false ->
      exists m,
        In m [ERR_TOPIC_EMPTY; ERR_TOPIC_LENGTH; ERR_KEYPOINTS_EMPTY;
              ERR_KEYPOINTS_LENGTH]
        /\ snd (validateForm s) = setError m s).
Proof.
  split; [|split].
  - validate_cases s; (split; [intros H; try discriminate H; tauto|]);
      intros (H1 & H2 & H3 & H4); try reflexivity; exfalso;
      try congruence; lia.
  - validate_cases s; intros H; try discriminate H; reflexivity.
  - validate_cases s; intros H; try discriminate H;
      eexists; (split; [|reflexivity]); cbn [In]; tauto.
Qed.

(** X8. [validateForm] answers true exactly when the topic and the key
    points are non-blank and at most 200 and 2000 code units long,
    untrimmed; it then leaves the state as it is (an error already shown
    is not cleared); when it answers false it changes nothing but the
    error, which is one of its four messages. *)
Theorem validateForm_accepts_exactly (s : State) :
  (fst (validateForm s) = true
   <-> trim (topic (formData s)) <> []
       /\ List.length (topic (formData s)) <= 200
       /\ trim (keyPoints (formData s)) <> []
       /\ List.length (keyPoints (formData s)) <= 2000)
  /\ (fst (validateForm s) = true -> snd (validateForm s) = s)
  /\ (fst (validateForm s) = false ->
      exists m,
        In m [ERR_TOPIC_EMPTY; ERR_TOPIC_LENGTH; ERR_KEYPOINTS_EMPTY;
              ERR_KEYPOINTS_LENGTH]
        /\ snd (validateForm s) = setError m s).
Proof. apply validateForm_characterised. Qed.

Lemma payload_fields (p : GenerateRequest) :
  Route.field (EndToEnd.body_of_payload p) (js "topic") = VString (topic p)
  /\ Route.field (EndToEnd.body_of_payload p) (js "keyPoints") = VString (keyPoints p)
  /\ Route.field (EndToEnd.body_of_payload p) (js "tone") = VString (tone p).
Proof. repeat split. Qed.

Lemma accepted_form_passes_checks (s : State) :
  fst (validateForm s) = true ->
  In (tone (formData s)) Route.TONES ->
  passes_validation (EndToEnd.body_of_payload (formData s)).
Proof.
  intros Hv Htone.
  destruct (validateForm_characterised s) as [[Hiff _] _].
  destruct (Hiff Hv) as (H1 & H2 & H3 & H4).
  destruct (payload_fields (formData s)) as (Ft & Fk & Fn).
  pose proof (trim_length (topic (formData s))).
  pose proof (trim_length (keyPoints (formData s))).
  repeat split.
  - exists (topic (formData s)). now split.
  - exists (topic (formData s)). split; [exact Ft | lia].
  - exists (keyPoints (formData s)). now split.
  - exists (keyPoints (formData s)). split; [exact Fk | lia].
  - exists (tone (formData s)). now split.
Qed.

(** X9. A form that [validateForm] accepts, with one of the five tones,
    passes all five checks of the endpoint: whatever the environment and
    the provider do, the endpoint does not answer it with status 400. *)
Theorem accepted_form_is_not_rejected_by_the_endpoint
        (env : Route.Env)
        (create : Route.MessageCreateParams -> Route.CreateOutcome)
        (s : State) :
  fst (validateForm s) = true ->
  In (tone (formData s)) Route.TONES ->
  passes_validation (EndToEnd.body_of_payload (formData s))
  /\ Route.status
       (snd (Route.POST env create
               (Route.mkRequest (inr (EndToEnd.body_of_payload (formData s))))))
     <> 400%Z.
Proof.
  intros Hv Htone.
  pose proof (@accepted_form_passes_checks s Hv Htone) as Hpass.
  split; [exact Hpass|].
  destruct (@POST_valid_response env create
              (Route.mkRequest (inr (EndToEnd.body_of_payload (formData s))))
              (EndToEnd.body_of_payload (formData s)) eq_refl Hpass)
    as [[text ->] | Hin]; [discriminate|].
  cbn [In] in Hin.
  repeat (destruct Hin as [<-|Hin]; [discriminate|]). destruct Hin.
Qed.

Lemma accepted_form_is_not_rejected_by_the_endpoint_witness :
  Route.status
    (snd (Route.POST Sample.env_without_key (Sample.resolving [])
            (Route.mkRequest
               (inr (EndToEnd.body_of_payload (formData SamplePage.ready))))))
  <> 400%Z.
Proof.
  apply (@accepted_form_is_not_rejected_by_the_endpoint Sample.env_without_key
           (Sample.resolving []) SamplePage.ready).
  - reflexivity.
  - right. left. reflexivity.
Defined.

Lemma validateForm_error_nonempty (s : State) :
  fst (validateForm s) = false -> error (snd (validateForm s)) <> [].
Proof.
  intros H. destruct (validateForm_characterised s) as (_ & _ & Hf).
  destruct (Hf H) as [m [Hin ->]]. cbn [In] in Hin. cbn [error setError].
  repeat (destruct Hin as [<-|Hin]; [discriminate|]). destruct Hin.
Qed.

Lemma handleSubmit_frame
        (fetch : FetchRequest -> FetchOutcome) (now now' : Z) (s : State) :
  formData (fst (handleSubmit fetch now now' s)) = formData s
  /\ copySuccess (fst (handleSubmit fetch now now' s)) = copySuccess s
  /\ downloadSuccess (fst (handleSubmit fetch now now' s)) = downloadSuccess s
  /\ ((snd (handleSubmit fetch now now' s) = []
       /\ error (fst (handleSubmit fetch now now' s)) <> []
       /\ generatedArticle (fst (handleSubmit fetch now now' s)) = generatedArticle s
       /\ lastGenerated (fst (handleSubmit fetch now now' s)) = lastGenerated s
       /\ isLoading (fst (handleSubmit fetch now now' s)) = isLoading s
       /\ (fst (validateForm s) = false \/ (now - lastGenerated s < 3000)%Z))
      \/ (snd (handleSubmit fetch now now' s)
          = [mkFetch (js "/api/generate") (js "POST") (js "application/json")
                     (formData s)]
          /\ isLoading (fst (handleSubmit fetch now now' s)) = false
          /\ fst (validateForm s) = true
          /\ (3000 <= now - lastGenerated s)%Z)).
Proof.
  destruct (fst (validateForm s)) eqn:Hv.
  - destruct (Z.lt_ge_cases (now - lastGenerated s) 3000) as [Hlt|Hge].
    + rewrite (@handleSubmit_cooldown fetch now now' s Hv Hlt). cbn [fst snd].
      repeat split. left. repeat split; [discriminate | now right].
    + rewrite (@handleSubmit_proceeds fetch now now' s Hv Hge). cbn [fst snd].
      destruct (fetch (generate_request s)) as [e|ok [e|data]];
        [| |destruct ok]; repeat split; right; repeat split; assumption.
  - rewrite (@handleSubmit_invalid fetch now now' s Hv). cbn [fst snd].
    destruct (validateForm_characterised s) as (_ & _ & Hf).
    destruct (Hf Hv) as [m [Hin Hs]].
    pose proof (@validateForm_error_nonempty s Hv) as Hne.
    rewrite Hs in *. repeat split. left. repeat split; [exact Hne | now left].
Qed.

(** X10. [handleSubmit] issues at most one request, and only for a form
    that [validateForm] accepts, 3000 ms or more after the last success;
    that request is a POST of the current form to "/api/generate". It never
    changes the form or the copy and download flags. When it issues no
    request it shows a non-empty error and keeps the draft, the time stamp
    and the loading flag; when it issues one, the loading flag is off at
    the end. *)
Theorem handleSubmit_requests_and_frame
        (fetch : FetchRequest -> FetchOutcome) (now now' : Z) (s : State) :
  formData (fst (handleSubmit fetch now now' s)) = formData s
  /\ copySuccess (fst (handleSubmit fetch now now' s)) = copySuccess s
  /\ downloadSuccess (fst (handleSubmit fetch now now' s)) = downloadSuccess s
  /\ ((snd (handleSubmit fetch now now' s) = []
       /\ error (fst (handleSubmit fetch now now' s)) <> []
       /\ generatedArticle (fst (handleSubmit fetch now now' s)) = generatedArticle s
       /\ lastGenerated (fst (handleSubmit fetch now now' s)) = lastGenerated s
       /\ isLoading (fst (handleSubmit fetch now now' s)) = isLoading s
       /\ (fst (validateForm s) = false \/ (now - lastGenerated s < 3000)%Z))
      \/ (snd (handleSubmit fetch now now' s)
          = [mkFetch (js "/api/generate") (js "POST") (js "application/json")
                     (formData s)]
          /\ isLoading (fst (handleSubmit fetch now now' s)) = false
          /\ fst (validateForm s) = true
          /\ (3000 <= now - lastGenerated s)%Z)).
Proof. apply handleSubmit_frame. Qed.

(** X11. The page in front of the endpoint: when a form that
    [validateForm] accepts, with one of the five tones, is submitted
    outside the cooldown window and the exchange gets through, then either
    the endpoint answered 200 and the page holds the returned article, no
    error and the new time stamp, or the page holds an empty draft, the
    old time stamp and as its error one of the endpoint's five messages
    that are not about the input (credential missing, credential invalid,
    rate limit, timeout, generic); the loading flag is off in both cases. *)
Theorem submit_through_the_endpoint
        (env : Route.Env)
        (create : Route.MessageCreateParams -> Route.CreateOutcome)
        (now now' : Z) (s : State) :
  fst (validateForm s) = true ->
  In (tone (formData s)) Route.TONES ->
  (3000 <= now - lastGenerated s)%Z ->
  isLoading (fst (handleSubmit (EndToEnd.fetch_generate env create) now now' s)) = false
  /\ ((exists text,
         snd (Route.POST env create
                (Route.mkRequest (inr (EndToEnd.body_of_payload (formData s)))))
         = Route.mkResponse (Route.ArticleBody text) 200
         /\ generatedArticle
              (fst (handleSubmit (EndToEnd.fetch_generate env create) now now' s)) = text
         /\ error (fst (handleSubmit (EndToEnd.fetch_generate env create) now now' s)) = []
         /\ lastGenerated
              (fst (handleSubmit (EndToEnd.fetch_generate env create) now now' s)) = now')
      \/ (In (error (fst (handleSubmit (EndToEnd.fetch_generate env create) now now' s)))
             [Route.MSG_NOT_CONFIGURED; Route.MSG_INVALID_KEY; Route.MSG_RATE_LIMIT;
              Route.MSG_TIMEOUT; Route.MSG_GENERIC]
          /\ generatedArticle
               (fst (handleSubmit (EndToEnd.fetch_generate env create) now now' s)) = []
          /\ lastGenerated
               (fst (handleSubmit (EndToEnd.fetch_generate env create) now now' s))
             = lastGenerated s)).
Proof.
  intros Hv Htone Hge.
  rewrite (@handleSubmit_proceeds (EndToEnd.fetch_generate env create) now now' s Hv Hge).
  cbn [fst]. split; [reflexivity|].
  pose proof (@accepted_form_passes_checks s Hv Htone) as Hpass.
  unfold EndToEnd.fetch_generate. cbn [payload generate_request].
  destruct (@POST_valid_response env create
              (Route.mkRequest (inr (EndToEnd.body_of_payload (formData s))))
              (EndToEnd.body_of_payload (formData s)) eq_refl Hpass)
    as [[text Htext] | Hin].
  - left. exists text. rewrite Htext. repeat split.
  - right. cbn [In] in Hin.
    destruct Hin as [<-|[<-|[<-|[<-|[<-|[]]]]]]; cbn; repeat split; tauto.
Qed.

(** Witness of X11: the end-to-end scenario of a rate-limited provider. *)
Lemma submit_through_the_endpoint_witness :
  In (error
        (fst (handleSubmit
                (EndToEnd.fetch_generate Sample.env
                   (Sample.rejecting (js "rate limit exceeded")))
                1700000005000 1700000005500 SamplePage.ready)))
     [Route.MSG_NOT_CONFIGURED; Route.MSG_INVALID_KEY; Route.MSG_RATE_LIMIT;
      Route.MSG_TIMEOUT; Route.MSG_GENERIC].
Proof.
  destruct (@submit_through_the_endpoint Sample.env
              (Sample.rejecting (js "rate limit exceeded"))
              1700000005000 1700000005500 SamplePage.ready)
    as [_ [[text (Htext & _)] | (Hin & _)]].
  - reflexivity.
  - right. left. reflexivity.
  - discriminate.
  - vm_compute in Htext. discriminate Htext.
  - exact Hin.
Defined.

(** X12. [handleInputChange] stores the value in the named field and
    clears the error; the other two fields and the rest of the state stay
    as they are. Changes of different fields commute, and a second change
    of the same field overwrites the first. *)
Theorem handleInputChange_updates_one_field
        (f : Field) (v : jsstring) (s : State) :
  field_value f (formData (handleInputChange f v s)) = v
  /\ (forall g, g <> f ->
        field_value g (formData (handleInputChange f v s))
        = field_value g (formData s))
  /\ error (handleInputChange f v s) = []
  /\ generatedArticle (handleInputChange f v s) = generatedArticle s
  /\ isLoading (handleInputChange f v s) = isLoading s
  /\ lastGenerated (handleInputChange f v s) = lastGenerated s
  /\ copySuccess (handleInputChange f v s) = copySuccess s
  /\ downloadSuccess (handleInputChange f v s) = downloadSuccess s
  /\ (forall g w, g <> f ->
        handleInputChange g w (handleInputChange f v s)
        = handleInputChange f v (handleInputChange g w s))
  /\ (forall w,
        handleInputChange f w (handleInputChange f v s) = handleInputChange f w s).
Proof.
  repeat split.
  - now destruct f.
  - intros g Hg. destruct f, g; try reflexivity; now elim Hg.
  - intros g w Hg. destruct f, g; try reflexivity; now elim Hg.
  - intros w. now destruct f.
Qed.

(** X13. [copyToClipboard] hands the clipboard the draft as it stands,
    so an edit made in the draft box is what gets copied. When the write
    resolves the copy flag is set, the error is cleared and a timer of
    2000 ms is started whose callback clears the flag again; when the
    write rejects or the clipboard is missing, the copy error is shown, no
    timer is started and the copy flag stays as it was. The draft, the
    form, the time stamp and the other flags are never changed. *)
Theorem copy_takes_the_current_draft
        (clipboard : jsstring -> ClipboardOutcome) (edited : jsstring) (s : State) :
  (forall text,
      In (ClipboardWriteText text)
         (snd (copyToClipboard clipboard (setGeneratedArticle edited s))) ->
      text = edited)
  /\ (clipboard (generatedArticle s) = WriteResolves ->
      copyToClipboard clipboard s
      = (setError [] (setCopySuccess true s),
         [ClipboardWriteText (generatedArticle s); SetTimeout ClearCopySuccess 2000])
      /\ copySuccess (run_timer ClearCopySuccess (fst (copyToClipboard clipboard s)))
         = false)
  /\ (clipboard (generatedArticle s) <> WriteResolves ->
      fst (copyToClipboard clipboard s) = setError ERR_COPY s
      /\ forall cb delay, ~ In (SetTimeout cb delay) (snd (copyToClipboard clipboard s)))
  /\ generatedArticle (fst (copyToClipboard clipboard s)) = generatedArticle s
  /\ formData (fst (copyToClipboard clipboard s)) = formData s
  /\ lastGenerated (fst (copyToClipboard clipboard s)) = lastGenerated s
  /\ isLoading (fst (copyToClipboard clipboard s)) = isLoading s
  /\ downloadSuccess (fst (copyToClipboard clipboard s)) = downloadSuccess s.
Proof.
  unfold copyToClipboard. split; [|split; [|split]].
  - intros text. cbn [generatedArticle setGeneratedArticle].
    destruct (clipboard edited); cbn [snd In]; intros H.
    + destruct H as [H|[H|[]]]; [now injection H | discriminate H].
    + destruct H as [H|[]]. now injection H.
    + destruct H.
  - intros ->. split; reflexivity.
  - intros Hne. destruct (clipboard (generatedArticle s)); [now elim Hne| |];
      (split; [reflexivity|]); intros cb delay H; cbn [snd In] in H.
    + destruct H as [H|[]]. discriminate H.
    + exact H.
  - destruct (clipboard (generatedArticle s)); repeat split.
Qed.

Lemma slug_unit_safe (c : N) : file_name_unit (slug_unit c) = true.
Proof.
  unfold slug_unit, lower, is_alnum, file_name_unit, hyphen.
  destruct (N.leb_spec 48 c), (N.leb_spec c 57), (N.leb_spec 65 c),
    (N.leb_spec c 90), (N.leb_spec 97 c), (N.leb_spec c 122);
    cbn [andb orb]; try reflexivity; try lia;
    repeat match goal with
    | |- context [(?a <=? ?b)%N] =>
        let E := fresh in
        destruct (N.leb_spec a b) as [E|E]; try lia
    | |- context [(?a =? ?b)%N] =>
        let E := fresh in
        destruct (N.eqb_spec a b) as [E|E]; try lia
    end; cbn [andb orb]; try reflexivity; try lia.
Qed.

(** X14. Whatever the topic holds, the file name [downloadMarkdown] asks
    for is a stem of 1 to 50 code units, each of them a lower-case ASCII
    letter, a digit or a hyphen, followed by ".md": no path separator, dot,
    space or upper-case letter of the topic gets into it. *)
Theorem download_name_is_safe (s : State) :
  exists stem,
    downloadMarkdown_name s = stem ++ js ".md"
    /\ 1 <= List.length stem <= 50
    /\ Forall (fun c => file_name_unit c = true) stem.
Proof.
  rewrite download_name_eq.
  destruct (List.map slug_unit (firstn 50 (topic (formData s)))) as [|c stem] eqn:E.
  - exists (js "article"). split; [reflexivity|]. split; [cbn; lia|].
    repeat constructor.
  - exists (c :: stem). cbn [str_falsy]. split; [reflexivity|].
    rewrite <- E. split.
    + rewrite length_map, length_firstn.
      assert (List.length (List.map slug_unit (firstn 50 (topic (formData s)))) <> 0)
        by (rewrite E; discriminate).
      rewrite length_map, length_firstn in H. lia.
    + apply Forall_forall. intros x Hx. apply in_map_iff in Hx as [y [<- _]].
      apply slug_unit_safe.
Qed.

(** X15. [downloadMarkdown] saves the draft as it stands, as
    "text/markdown", under the name above. The download flag is set, and
    a timer of 2000 ms whose callback clears it is started, only when every
    DOM call returned; when one raises, the download error is shown and
    the flag stays as it was. A successful download does not clear an
    error that was shown before. *)
Theorem download_takes_the_current_draft
        (dom : DomOutcome) (edited : jsstring) (s : State) :
  (forall name content mime,
      In (SaveFile name content mime)
         (snd (downloadMarkdown dom (setGeneratedArticle edited s))) ->
      content = edited /\ mime = js "text/markdown"
      /\ name = downloadMarkdown_name s)
  /\ (dom = DomCompletes ->
      downloadSuccess (fst (downloadMarkdown dom s)) = true
      /\ error (fst (downloadMarkdown dom s)) = error s
      /\ snd (downloadMarkdown dom s)
         = [SaveFile (downloadMarkdown_name s) (generatedArticle s) (js "text/markdown");
            SetTimeout ClearDownloadSuccess 2000]
      /\ downloadSuccess (run_timer ClearDownloadSuccess (fst (downloadMarkdown dom s)))
         = false)
  /\ (dom <> DomCompletes ->
      fst (downloadMarkdown dom s) = setError ERR_DOWNLOAD s
      /\ forall cb delay, ~ In (SetTimeout cb delay) (snd (downloadMarkdown dom s)))
  /\ generatedArticle (fst (downloadMarkdown dom s)) = generatedArticle s
  /\ formData (fst (downloadMarkdown dom s)) = formData s
  /\ copySuccess (fst (downloadMarkdown dom s)) = copySuccess s.
Proof.
  split; [|split; [|split]].
  - intros name content mime. destruct dom; cbn; intros H.
    + destruct H as [H|[H|[]]]; [|discriminate H]. injection H as <- <- <-.
      repeat split.
    + destruct H.
    + destruct H as [H|[]]. injection H as <- <- <-. repeat split.
  - intros ->. repeat split.
  - intros Hne. destruct dom; [now elim Hne| |]; (split; [reflexivity|]);
      intros cb delay H; cbn in H.
    + exact H.
    + destruct H as [H|[]]. discriminate H.
  - destruct dom; repeat split.
Qed.

Lemma tone_option_is_a_tone (v : jsstring) :
  existsb (fun o => str_eqb (fst o) v) TONE_OPTIONS = true -> In v Route.TONES.
Proof.
  intros H. apply existsb_exists in H as [o [Hin Heq]].
  apply str_eqb_eq in Heq. subst v. cbn [In TONE_OPTIONS] in Hin.
  repeat (destruct Hin as [<-|Hin]; [cbn; tauto|]). destruct Hin.
Qed.

Lemma handle_keeps_the_form_within_the_markup (s : State) (e : UiEvent) :
  form_within_the_markup s -> enabled s e = true ->
  form_within_the_markup (handle e s).
Proof.
  unfold form_within_the_markup. intros (Ht & Hl & Hk & Hload) Hen.
  destruct e as [v|v|v|fetch now now'|v|clipboard|dom|cb]; cbn [handle enabled] in *.
  - apply andb_true_iff in Hen as [_ Hv]. apply Nat.leb_le in Hv. now repeat split.
  - apply andb_true_iff in Hen as [_ Hv]. apply Nat.leb_le in Hv. now repeat split.
  - apply andb_true_iff in Hen as [_ Hv]. apply tone_option_is_a_tone in Hv.
    now repeat split.
  - destruct (handleSubmit_frame fetch now now' s)
      as (Hf & _ & _ & [(_ & _ & _ & _ & Hi & _) | (_ & Hi & _)]);
      rewrite Hf; repeat split; try assumption; congruence.
  - now repeat split.
  - unfold copyToClipboard. destruct (clipboard (generatedArticle s));
      now repeat split.
  - destruct dom; now repeat split.
  - destruct cb; now repeat split.
Qed.

Lemma reachable_form_within_the_markup (s : State) :
  reachable s -> form_within_the_markup s.
Proof.
  induction 1 as [|s e Hr IH Hen].
  - unfold form_within_the_markup. cbn. repeat split; try lia. tauto.
  - now apply handle_keeps_the_form_within_the_markup.
Qed.

(** X16. In every state the page can reach from its first render, by any
    sequence of typing, selecting, submitting, editing, copying,
    downloading and timers that the markup allows, the tone is one of the
    five, the topic holds at most 200 code units, the key points at most
    2000, and the loading flag is off once the handler has finished. So
    [validateForm] never reports a length error there: when it refuses a
    reachable form, the error is "Please enter a topic" or "Please enter at
    least one key point". *)
Theorem reachable_forms_respect_the_markup (s : State) :
  reachable s ->
  In (tone (formData s)) Route.TONES
  /\ List.length (topic (formData s)) <= 200
  /\ List.length (keyPoints (formData s)) <= 2000
  /\ isLoading s = false
  /\ (fst (validateForm s) = false ->
      snd (validateForm s) = setError ERR_TOPIC_EMPTY s
      \/ snd (validateForm s) = setError ERR_KEYPOINTS_EMPTY s).
Proof.
  intros Hr. destruct (@reachable_form_within_the_markup s Hr) as (Ht & Hl & Hk & Hi).
  repeat (split; [assumption|]).
  unfold validateForm.
  apply Nat.ltb_ge in Hl. apply Nat.ltb_ge in Hk. rewrite Hl, Hk.
  destruct (str_falsy (trim (topic (formData s)))); cbn [fst snd]; [now left|].
  destruct (str_falsy (trim (keyPoints (formData s)))); cbn [fst snd]; [now right|].
  discriminate.
Qed.

(** Witness of X16: the page after typing a topic. *)
Lemma reachable_forms_respect_the_markup_witness :
  In (tone (formData (handle (TypeTopic (js "Remote Work")) initial_state)))
     Route.TONES.
Proof.
  apply (@reachable_forms_respect_the_markup
           (handle (TypeTopic (js "Remote Work")) initial_state)).
  apply reach_event; [apply reach_initial | reflexivity].
Defined.

(** X17. No request that the page can send is refused by the endpoint's
    input checks: in every reachable state, a submission that issues a
    request sends a body that passes the five checks, so the endpoint,
    whatever the environment and the provider do, does not answer it with
    status 400. *)
Theorem page_requests_pass_the_endpoint_checks
        (env : Route.Env)
        (create : Route.MessageCreateParams -> Route.CreateOutcome)
        (fetch : FetchRequest -> FetchOutcome) (now now' : Z)
        (s : State) (request : FetchRequest) :
  reachable s ->
  In request (snd (handleSubmit fetch now now' s)) ->
  passes_validation (EndToEnd.body_of_payload (payload request))
  /\ Route.status
       (snd (Route.POST env create
               (Route.mkRequest (inr (EndToEnd.body_of_payload (payload request))))))
     <> 400%Z.
Proof.
  intros Hr Hin.
  destruct (@reachable_form_within_the_markup s Hr) as (Ht & _).
  destruct (handleSubmit_frame fetch now now' s)
    as (_ & _ & _ & [(Hnone & _) | (Hone & _ & Hv & _)]).
  - rewrite Hnone in Hin. destruct Hin.
  - rewrite Hone in Hin. destruct Hin as [<-|[]]. cbn [payload].
    pose proof (@accepted_form_passes_checks s Hv Ht) as Hpass.
    split; [exact Hpass|].
    destruct (@POST_valid_response env create
                (Route.mkRequest (inr (EndToEnd.body_of_payload (formData s))))
                (EndToEnd.body_of_payload (formData s)) eq_refl Hpass)
      as [[text ->] | Hin]; [discriminate|].
    cbn [In] in Hin.
    repeat (destruct Hin as [<-|Hin]; [discriminate|]). destruct Hin.
Qed.

(** Witness of X17: the first render, a topic and key points typed, then
    a submission. *)
Lemma page_requests_pass_the_endpoint_checks_witness :
  let s := handle (TypeKeyPoints (js "productivity, isolation, tooling"))
                  (handle (TypeTopic (js "Remote Work")) initial_state) in
  Route.status
    (snd (Route.POST Sample.env (Sample.rejecting (js "timeout"))
            (Route.mkRequest
               (inr (EndToEnd.body_of_payload (payload (generate_request s)))))))
  <> 400%Z.
Proof.
  cbv zeta.
  apply (@page_requests_pass_the_endpoint_checks Sample.env
           (Sample.rejecting (js "timeout"))
           (SamplePage.answering SamplePage.server_success)
           1700000005000 1700000005500
           (handle (TypeKeyPoints (js "productivity, isolation, tooling"))
                   (handle (TypeTopic (js "Remote Work")) initial_state))).
  - apply reach_event; [apply reach_event; [apply reach_initial|]|]; reflexivity.
  - left. reflexivity.
Defined.

(** X18. Two submissions in a row: when the first one succeeds, a second
    one of the same form made fewer than 3000 ms after the first response
    was handled issues no request, shows the "please wait" error and
    keeps the article of the first on screen; the window is counted from
    the time the response was handled, not from the first click. *)
Theorem resubmission_after_success_must_wait
        (fetch fetch2 : FetchRequest -> FetchOutcome)
        (now now' later later' : Z) (s : State) (data : GenerateResponse) :
  fst (validateForm s) = true ->
  (3000 <= now - lastGenerated s)%Z ->
  fetch (generate_request s) = FetchResolves true (inr data) ->
  (later - now' < 3000)%Z ->
  snd (handleSubmit fetch2 later later' (fst (handleSubmit fetch now now' s))) = []
  /\ error (fst (handleSubmit fetch2 later later' (fst (handleSubmit fetch now now' s))))
     = ERR_WAIT
  /\ generatedArticle
       (fst (handleSubmit fetch2 later later' (fst (handleSubmit fetch now now' s))))
     = article data
  /\ lastGenerated
       (fst (handleSubmit fetch2 later later' (fst (handleSubmit fetch now now' s))))
     = now'.
Proof.
  intros Hv Hge Hok Hlt.
  pose proof (handleSubmit_keeps_form fetch now now' s) as Hform.
  assert (Hfirst : fst (handleSubmit fetch now now' s)
                   = setIsLoading false
                       (setLastGenerated now'
                          (setGeneratedArticle (article data)
                             (setGeneratedArticle []
                                (setError [] (setIsLoading true s)))))).
  { rewrite (@handleSubmit_proceeds fetch now now' s Hv Hge). cbn [fst].
    rewrite Hok. reflexivity. }
  assert (Hv1 : fst (validateForm (fst (handleSubmit fetch now now' s))) = true)
    by now rewrite (@validateForm_depends_on_form _ _ Hform).
  rewrite (@handleSubmit_cooldown fetch2 later later'
             (fst (handleSubmit fetch now now' s)) Hv1).
  - rewrite Hfirst. repeat split.
  - rewrite Hfirst. exact Hlt.
Qed.

(** Witness of X18: a success handled at 1700000005500, a second click at
    1700000007000. *)
Lemma resubmission_after_success_must_wait_witness :
  error (fst (handleSubmit (SamplePage.answering SamplePage.server_success)
                1700000007000 1700000007500
                (fst (handleSubmit (SamplePage.answering SamplePage.server_success)
                        1700000005000 1700000005500 SamplePage.ready))))
  = ERR_WAIT.
Proof.
  apply (@resubmission_after_success_must_wait
           (SamplePage.answering SamplePage.server_success)
           (SamplePage.answering SamplePage.server_success)
           1700000005000 1700000005500 1700000007000 1700000007500
           SamplePage.ready (mkData (js "# Remote Work, again") None));
    reflexivity || discriminate.
Defined.

End PageExtras.
